(** * slackreact: a shallow embedding of the bot runtime and its rule contract

    The development follows [slackreact/_rules.py] and [slackreact/_bot.py].
    Python values decoded from JSON are an inductive type, dictionaries are
    finite maps, and the [async] methods are computations of a small monad
    that threads the shared event dictionary, the traffic sent to the
    gateway, the log and the cancellations, and that ends in a return
    value, a raised exception, or a task that is still suspended when its
    batch deadline passes.  The case tables behind [str.lower] are a
    parameter. *)

From stdpp Require Import gmap strings list fin_maps.
From Stdlib Require Import Ascii String.

Local Open Scope string_scope.

#[local] Set Warnings "-register-all".

(** ** Python values *)

(** What [json.loads] produces.  Numbers are kept as integers: the code
    modelled here never computes with one. *)
Inductive value :=
| VNone
| VBool (b : bool)
| VInt (z : Z)
| VStr (s : string)
| VList (l : list value)
| VDict (d : gmap string value).

(** A Python [dict] with string keys. *)
Abbreviation pydict := (gmap string value).

(** Exceptions the modelled code can raise. *)
Inductive exn :=
| KeyError (key : string)
| TypeError
| AttributeError
| ValueError
| NotImplementedError
| TimeoutError
| ConnectionClosed
| OtherError (what : string).

(** Truthiness of a value, as in [if x:] and [while x:]. *)
Definition truthy (v : value) : bool :=
  match v with
  | VNone => false
  | VBool b => b
  | VInt z => negb (Z.eqb z 0)
  | VStr s => negb (String.eqb s "")
  | VList l => match l with [] => false | _ => true end
  | VDict d => negb (bool_decide (d = ∅))
  end.

(** [a == b] on decoded values: structural, with [True == 1] and
    [False == 0] as Python has them. *)
Fixpoint py_eq (a b : value) {struct a} : bool :=
  match a, b with
  | VNone, VNone => true
  | VBool x, VBool y => Bool.eqb x y
  | VBool x, VInt z => Z.eqb (Z.b2z x) z
  | VInt z, VBool x => Z.eqb z (Z.b2z x)
  | VInt x, VInt y => Z.eqb x y
  | VStr x, VStr y => String.eqb x y
  | VList l, VList l' =>
      (fix go (l l' : list value) {struct l} : bool :=
         match l, l' with
         | [], [] => true
         | x :: l, y :: l' => py_eq x y && go l l'
         | _, _ => false
         end) l l'
  | VDict d, VDict d' =>
      bool_decide (dom d = dom d') &&
      map_fold (fun k v acc =>
                  acc && match d' !! k with
                         | Some v' => py_eq v v'
                         | None => false
                         end) true d
  | _, _ => false
  end.

(** Lists and dicts are unhashable: they cannot be dictionary keys. *)
Definition hashable (v : value) : bool :=
  match v with
  | VList _ | VDict _ => false
  | _ => true
  end.

(** ** Python strings *)

(** A [str] is held as its UTF-8 encoding, one byte per [ascii].  Equality,
    [startswith] and [in] on two encodings are those on the two strings:
    the encoding of a character never occurs inside, or across, the
    encodings of other characters. *)

(** Lower-casing of one ASCII character: [A]..[Z] go to [a]..[z]. *)
Definition lower_ascii (c : ascii) : ascii :=
  let n := N_of_ascii c in
  if (65 <=? n)%N && (n <=? 90)%N then ascii_of_N (n + 32) else c.

(** Lower-casing of a text that is ASCII throughout. *)
Fixpoint ascii_lower (s : string) : string :=
  match s with
  | EmptyString => EmptyString
  | String c s' => String (lower_ascii c) (ascii_lower s')
  end.

Definition is_ascii (s : string) : bool :=
  forallb (fun c => (N_of_ascii c <? 128)%N) (list_ascii_of_string s).

(** [s.lower()].  Python lower-cases a string by the Unicode case tables
    of the interpreter.  The tables are not part of the repository: they
    are a parameter of the development, of which only this is used, that
    a text which is ASCII throughout is lower-cased letter by letter. *)
Class CaseTables := {
  lower : string -> string;
  lower_ascii_text : forall s, is_ascii s = true -> lower s = ascii_lower s
}.

(** [s.startswith(p)]. *)
Fixpoint startswith (s p : string) : bool :=
  match p, s with
  | EmptyString, _ => true
  | String _ _, EmptyString => false
  | String a p', String b s' => Ascii.eqb a b && startswith s' p'
  end.

(** [q in s] for two strings: [q] occurs in [s] at some offset. *)
Fixpoint str_contains (q s : string) : bool :=
  startswith s q ||
  match s with
  | EmptyString => false
  | String _ s' => str_contains q s'
  end.



(** ** Subscripts and dictionary reads on values *)

(** [v[k]] for a string key [k]: only a [dict] can be indexed by a string,
    and a plain [dict] raises [KeyError] on a key it does not hold. *)
Definition subscript (v : value) (k : string) : exn + value :=
  match v with
  | VDict d =>
      match d !! k with
      | Some x => inr x
      | None => inl (KeyError k)
      end
  | _ => inl TypeError
  end.

(** [d.get(k, default)] on a [dict]. *)
Definition dict_get (d : pydict) (k : string) (default : value) : value :=
  match d !! k with
  | Some x => x
  | None => default
  end.

(** [v.get(k, default)] on a value: only a [dict] has the method. *)
Definition get_or (v : value) (k : string) (default : value) : exn + value :=
  match v with
  | VDict d => inr (dict_get d k default)
  | _ => inl AttributeError
  end.

(** A directory table ([id_to_channel] and its siblings): a [dict] whose
    keys and values come from decoded responses.  The first entry whose key
    equals the one looked up is the binding. *)
Definition table := list (value * value).

Fixpoint assoc (t : table) (key : value) : option value :=
  match t with
  | [] => None
  | (k, v) :: t' => if py_eq key k then Some v else assoc t' key
  end.

(** [table.get(key)]: [None] for a key the table does not hold, and
    [TypeError] for a key that cannot be hashed. *)
Definition table_get (t : table) (key : value) : exn + value :=
  if hashable key then inr (default (VNone) (assoc t key)) else inl TypeError.

(** [table[key] = v] inside a dict comprehension: a later entry with the
    same key replaces the earlier one. *)
Definition table_set (t : table) (key v : value) : exn + table :=
  if hashable key
  then inr ((key, v) :: List.filter (fun kv => negb (py_eq key (fst kv))) t)
  else inl TypeError.

(** ** Tasks *)

(** How a coroutine stands when it is looked at: it returned, it raised, or
    it is suspended on an answer that has not come (and, inside a batch,
    still is when the deadline passes). *)
Inductive outcome (A : Type) :=
| Return (a : A)
| Raise (e : exn)
| Suspended.
Arguments Return {A} a.
Arguments Raise {A} e.
Arguments Suspended {A}.

(** One call to the gateway: the method in the URL and the posted form. *)
Record request := Request { req_method : value; req_data : pydict }.

(** Logging levels used by the runtime. *)
Inductive level := INFO | ERROR.

(** What a task can touch: the event dictionary shared by the rules of one
    batch, the requests posted to the gateway so far, the log, and the
    tasks that have been cancelled, each named by its position in its
    batch. *)
Record world := World {
  event : pydict;
  sent : list request;
  journal : list (level * string);
  cancelled : list nat
}.

Definition set_event (f : pydict -> pydict) (w : world) : world :=
  World (f (event w)) (sent w) (journal w) (cancelled w).
Definition add_sent (r : request) (w : world) : world :=
  World (event w) (sent w ++ [r]) (journal w) (cancelled w).
Definition add_journal (l : level) (msg : string) (w : world) : world :=
  World (event w) (sent w) (journal w ++ [(l, msg)]) (cancelled w).
Definition add_cancelled (fut : nat) (w : world) : world :=
  World (event w) (sent w) (journal w) (cancelled w ++ [fut]).

(** An [async] method: a function of the world. *)
Definition task (A : Type) : Type := world -> outcome A * world.

Definition ret {A} (a : A) : task A := fun w => (Return a, w).
Definition raise {A} (e : exn) : task A := fun w => (Raise e, w).
Definition bind {A B} (m : task A) (f : A -> task B) : task B :=
  fun w =>
    match m w with
    | (Return a, w') => f a w'
    | (Raise e, w') => (Raise e, w')
    | (Suspended, w') => (Suspended, w')
    end.

Declare Scope task_scope.
Delimit Scope task_scope with task.
Notation "x <- m ;; k" := (bind m (fun x => k))
  (at level 100, m at next level, right associativity) : task_scope.
Notation "m ;;; k" := (bind m (fun _ => k))
  (at level 100, right associativity) : task_scope.
Local Open Scope task_scope.

(** Lift a pure result that may be an exception. *)
Definition lift {A} (r : exn + A) : task A :=
  match r with
  | inl e => raise e
  | inr a => ret a
  end.

(** [event[k]] on the [defaultdict(lambda: None, ...)]: a key that is
    missing is stored with [None] by the lookup itself. *)
Definition event_getitem (k : string) : task value :=
  fun w =>
    match event w !! k with
    | Some v => (Return v, w)
    | None => (Return VNone, set_event (insert k VNone) w)
    end.

(** [event[k] = v]. *)
Definition event_setitem (k : string) (v : value) : task unit :=
  fun w => (Return tt, set_event (insert k v) w).

(** The value the total lookup [event[k]] yields, without the store. *)
Definition event_value (ev : pydict) (k : string) : value :=
  dict_get ev k VNone.

(** ** The bot's state ([SlackBot.__init__]) *)

Record SlackBot := {
  token : string;
  report_to_user : option string;
  me : value;
  id_to_user : table;
  user_to_id : table;
  id_to_channel : table;
  channel_to_id : table
}.

(** ** The rule contract ([_rules.py]) *)

(** What [get_response_text] may return: one string or several. *)
Inductive response_text :=
| OneText (s : string)
| Texts (l : list string).

Module SlackRule.
Section Methods.

Variable bot : SlackBot.

(** The methods as [self] resolves them: what a subclass supplies or
    overrides. *)
Variable self_get_applicable_channels : task (list string).
Variable self_should_respond_to_channel : value -> task bool.
Variable self_should_respond_to_message : task bool.
Variable self_should_respond_to_event : task bool.
Variable self_get_response_text : task response_text.
Variable self_respond : task (list pydict).

(** [load]: nothing to initialise. *)
Definition load : task unit := ret tt.

(** [get_applicable_channels], [should_respond_to_message] and
    [get_response_text] of the base class. *)
Definition not_implemented {A} : task A := raise NotImplementedError.

Definition should_respond_to_channel (channel_id : value) : task bool :=
  channel_name <- lift (table_get (id_to_channel bot) channel_id) ;;
  match channel_name with
  | VNone => ret false
  | _ =>
      channels <- self_get_applicable_channels ;;
      ret (existsb (fun c => py_eq channel_name (VStr c)) channels)
  end.

Definition should_respond_to_event : task bool :=
  ty <- event_getitem "type" ;;
  if negb (py_eq ty (VStr "message")) then ret false else
  channel <- event_getitem "channel" ;;
  ok <- self_should_respond_to_channel channel ;;
  if negb ok then ret false else
  text <- event_getitem "text" ;;
  (match text with
   | VNone => event_setitem "text" (VStr "")
   | _ => ret tt
   end) ;;;
  self_should_respond_to_message.

Definition respond : task (list pydict) :=
  responses <- self_get_response_text ;;
  let responses :=
    match responses with
    | OneText s => [s]
    | Texts l => l
    end in
  channel <- event_getitem "channel" ;;
  let message : pydict :=
    <["as_user" := VBool true]>
      (<["channel" := channel]> (<["method" := VStr "chat.postMessage"]> ∅)) in
  thread_ts <- event_getitem "thread_ts" ;;
  message <-
    (match thread_ts with
     | VNone => ret message
     | _ =>
         thread_ts <- event_getitem "thread_ts" ;;
         ret (<["thread_ts" := thread_ts]> message)
     end) ;;
  ret (map (fun response => <["text" := VStr response]> message) responses).

Definition react : task (list pydict) :=
  yes <- self_should_respond_to_event ;;
  if yes then self_respond else ret [].

End Methods.
End SlackRule.

Module MessageContainsRule.
Section Methods.

Context {tables : CaseTables}.
Variable self_get_query_strings : task (list string).

(** The generator inside [any(...)]: [message["text"].lower()] is
    evaluated afresh for each query, and the first hit ends the scan. *)
Fixpoint any_query_in_text (queries : list string) : task bool :=
  match queries with
  | [] => ret false
  | q :: rest =>
      text <- event_getitem "text" ;;
      match text with
      | VStr s =>
          if str_contains q (lower s) then ret true
          else any_query_in_text rest
      | _ => raise AttributeError
      end
  end.

Definition should_respond_to_message : task bool :=
  queries <- self_get_query_strings ;;
  any_query_in_text queries.

End Methods.
End MessageContainsRule.

Module SnippetOrMessageContainsRule.
Section Methods.

Context {tables : CaseTables}.
Variable self_get_query_strings : task (list string).

(** The authenticated download of a snippet: the body for a URL, or the
    failure of the request. *)
Variable http_get_text : value -> task string.

Definition should_respond_to_message : task bool :=
  hit <- MessageContainsRule.should_respond_to_message self_get_query_strings ;;
  if hit then ret true else
  subtype <- event_getitem "subtype" ;;
  not_snippet <-
    (if negb (py_eq subtype (VStr "file_share")) then ret true else
     file <- event_getitem "file" ;;
     mode <- lift (subscript file "mode") ;;
     ret (negb (py_eq mode (VStr "snippet")))) ;;
  if (not_snippet : bool) then ret false else
  file <- event_getitem "file" ;;
  url <- lift (subscript file "url_private") ;;
  file_contents <- http_get_text url ;;
  queries <- self_get_query_strings ;;
  ret (existsb (fun q => str_contains q (lower file_contents)) queries).

End Methods.
End SnippetOrMessageContainsRule.

(** ** The runtime ([_bot.py]) *)

(** A rule instance as the runtime sees it: the dispatcher calls [load]
    once per connection and [react] once per event, both with the bot the
    rule was constructed with. *)
Record rule := Rule {
  rule_name : string;
  rule_load : SlackBot -> task unit;
  rule_react : SlackBot -> task (list pydict)
}.

Section Runtime.

(** The gateway behind [session.post]: its answer to a request, given the
    requests it has already seen.  It may answer with a decoded body,
    fail, or not answer in time. *)
Variable gateway : list request -> request -> outcome value.

(** Renderings used in log lines: [f"{event}"] for an event that is
    [None] or a dict, [f"{e}"], [traceback.format_exc()] and
    [f"{rule}"]. *)
Variable repr_event : option pydict -> string.
Variable str_exn : exn -> string.
Variable format_exc : exn -> string.

Definition get_readable_event (bot : SlackBot) (ev : pydict) : exn + pydict :=
  match table_get (id_to_channel bot) (dict_get ev "channel" (VStr "")) with
  | inl e => inl e
  | inr channel_name =>
      match table_get (id_to_user bot) (dict_get ev "user" (VStr "")) with
      | inl e => inl e
      | inr user_name =>
          inr (<["user_name" := user_name]> (<["channel_name" := channel_name]> ev))
      end
  end.

Definition api_call (bot : SlackBot) (data : pydict) : task value :=
  match data !! "method" with
  | None => raise (KeyError "method")
  | Some method =>
      let req := Request method (<["token" := VStr (token bot)]> (delete "method" data)) in
      fun w => (gateway (sent w) req, add_sent req w)
  end.

(** The call [self.api_call(...)] with the keywords of a dictionary: a
    keyword named [self] collides with the bound method's own argument,
    and the call raises before the body of [api_call] is entered. *)
Definition api_call_kwargs (bot : SlackBot) (kwargs : pydict) : task value :=
  match kwargs !! "self" with
  | Some _ => raise TypeError
  | None => api_call bot kwargs
  end.

(** [log.log(level, message)]. *)
Definition log (l : level) (message : string) : task unit :=
  fun w => (Return tt, add_journal l message w).

Definition log_and_report (bot : SlackBot) (message : string) (l : level) : task unit :=
  log l message ;;;
  match report_to_user bot with
  | Some user =>
      if String.eqb user "" then ret tt else
      api_call bot
        (<["text" := VStr message]>
           (<["channel" := VStr user]> (<["method" := VStr "chat.postMessage"]> ∅))) ;;;
      ret tt
  | None => ret tt
  end.

(** The tasks of a batch.  [asyncio] interleaves them at their awaits; here
    each task runs, in the order of the batch, up to the point it reaches
    before the deadline: its return, its exception, or the suspension it
    is still in.  The sets [done] and [pending] are walked in that order
    too. *)
Fixpoint run_tasks (futures : list (task unit)) (w : world) : list (outcome unit) * world :=
  match futures with
  | [] => ([], w)
  | fut :: rest =>
      let '(o, w1) := fut w in
      let '(os, w2) := run_tasks rest w1 in
      (o :: os, w2)
  end.

(** [asyncio.wait(futures, timeout=20)]: refuses an empty collection;
    otherwise every task has its outcome, [Suspended] for the pending
    ones. *)
Definition asyncio_wait (futures : list (task unit)) : task (list (outcome unit)) :=
  match futures with
  | [] => raise ValueError
  | _ => fun w => let '(os, w') := run_tasks futures w in (Return os, w')
  end.

Definition timeout_message (ev : option pydict) : string :=
  "Timeout: On event `" ++ repr_event ev ++ "`".

Definition error_message (e : exn) (ev : option pydict) : string :=
  "Error: " ++ str_exn e ++ String "010" ("On event `" ++ repr_event ev ++ "`" ++
  String "010" ("```" ++ format_exc e ++ "```")).

(** [fut.cancel()] on the task at position [fut] of the batch. *)
Definition cancel (fut : nat) : task unit :=
  fun w => (Return tt, add_cancelled fut w).

(** [for fut in pending: fut.cancel(); await self.log_and_report(...)];
    [fut] is the position of the first of [results] in the batch. *)
Fixpoint report_pending (bot : SlackBot) (ev : option pydict) (fut : nat)
    (results : list (outcome unit)) : task unit :=
  match results with
  | [] => ret tt
  | Suspended :: rest =>
      cancel fut ;;;
      log_and_report bot (timeout_message ev) ERROR ;;;
      report_pending bot ev (S fut) rest
  | _ :: rest => report_pending bot ev (S fut) rest
  end.

(** [for fut in done: try: await fut / except Exception as e: ...]. *)
Fixpoint report_done (bot : SlackBot) (ev : option pydict)
    (results : list (outcome unit)) : task unit :=
  match results with
  | [] => ret tt
  | Raise e :: rest =>
      log_and_report bot (error_message e ev) ERROR ;;;
      report_done bot ev rest
  | _ :: rest => report_done bot ev rest
  end.

(** [_handle_futures(futures, event)]; [with_event] tells whether the
    batch's event was passed or the default [None]. *)
Definition _handle_futures (bot : SlackBot) (futures : list (task unit))
    (with_event : bool) : task unit :=
  results <- asyncio_wait futures ;;
  ev <- (if with_event then
           fun w =>
             if truthy (VDict (event w))
             then match get_readable_event bot (event w) with
                  | inl e => (Raise e, w)
                  | inr readable => (Return (Some readable), w)
                  end
             else (Return (Some (event w)), w)
         else ret None) ;;
  report_pending bot ev 0 results ;;;
  report_done bot ev results.

Variable repr_rule : rule -> string.

(** The loop that awaits [self.api_call] on each response in turn, the
    response being passed as keywords. *)
Fixpoint submit (bot : SlackBot) (responses : list pydict) : task unit :=
  match responses with
  | [] => ret tt
  | response :: rest => api_call_kwargs bot response ;;; submit bot rest
  end.

(** The closure [_react_to_rule] of [_process_event]. *)
Definition _react_to_rule (bot : SlackBot) (r : rule) : task unit :=
  responses <- rule_react r bot ;;
  (match responses with
   | [] => ret tt
   | _ => log INFO ("Rule " ++ repr_rule r ++ " is responding to an event.")
   end) ;;;
  submit bot responses.

(** [event["channel"].startswith("D")]. *)
Definition value_startswith (v : value) (p : string) : exn + bool :=
  match v with
  | VStr s => inr (startswith s p)
  | _ => inl AttributeError
  end.

Definition _process_event (bot : SlackBot) (rules : list rule)
    (event_dict : pydict) : task unit :=
  (fun w => (Return tt, set_event (fun _ => event_dict) w)) ;;;
  user <- event_getitem "user" ;;
  if py_eq user (me bot) then ret tt else
  ty <- event_getitem "type" ;;
  direct <-
    (if py_eq ty (VStr "message") then
       channel <- event_getitem "channel" ;;
       if truthy channel then
         channel <- event_getitem "channel" ;;
         lift (value_startswith channel "D")
       else ret false
     else ret false) ;;
  (if (direct : bool) then
     readable <- (fun w => lift (get_readable_event bot (event w)) w) ;;
     log INFO ("Direct message: " ++ repr_event (Some readable))
   else ret tt) ;;;
  _handle_futures bot (map (_react_to_rule bot) rules) true.

(** *** Paginated calls *)

(** The characters of a string: each byte that opens a character of the
    encoding, with the continuation bytes that follow it. *)
Definition is_continuation (c : ascii) : bool :=
  let n := N_of_ascii c in (128 <=? n)%N && (n <? 192)%N.

Fixpoint continuation (s : string) : string * string :=
  match s with
  | EmptyString => (EmptyString, EmptyString)
  | String c s' =>
      if is_continuation c
      then let '(more, rest) := continuation s' in (String c more, rest)
      else (EmptyString, s)
  end.

Fixpoint characters_upto (n : nat) (s : string) : list string :=
  match n, s with
  | S n', String c s' =>
      let '(more, rest) := continuation s' in
      String c more :: characters_upto n' rest
  | _, _ => []
  end.

Definition characters (s : string) : list string :=
  characters_upto (String.length s) s.

(** What [list.extend] iterates over: the items of a list, the characters
    of a string, the keys of a dict (here in the map's own order, which
    need not be the order the keys came in); other values are not
    iterable. *)
Definition iterate (v : value) : exn + list value :=
  match v with
  | VList l => inr l
  | VStr s => inr (map VStr (characters s))
  | VDict d => inr (map (fun kv => VStr (fst kv)) (map_to_list d))
  | _ => inl TypeError
  end.

(** [response.get("response_metadata", {}).get("next_cursor")]. *)
Definition next_cursor_of (response : value) : exn + value :=
  match get_or response "response_metadata" (VDict ∅) with
  | inl e => inl e
  | inr metadata => get_or metadata "next_cursor" VNone
  end.

(** The [while next_cursor:] loop.  [fuel] bounds the number of further
    pages; a loop that has not ended by then is still awaiting. *)
Fixpoint paginate (fuel : nat) (bot : SlackBot) (collect_key : string)
    (data : pydict) (acc : value) (next_cursor : value) : task value :=
  if truthy next_cursor then
    match fuel with
    | O => fun w => (Suspended, w)
    | S fuel' =>
        response <-
          (match data !! "cursor" with
           | Some _ => raise TypeError
           | None => api_call bot (<["cursor" := next_cursor]> data)
           end) ;;
        items <-
          (match acc with
           | VList l => ret l
           | _ => raise AttributeError
           end) ;;
        page <- lift (subscript response collect_key) ;;
        more <- lift (iterate page) ;;
        next_cursor <- lift (next_cursor_of response) ;;
        paginate fuel' bot collect_key data (VList (items ++ more)) next_cursor
    end
  else ret acc.

(** [data] holds the keywords [paginated_api_call] was called with,
    none of which can be [self] or [collect_key]. *)
Definition paginated_api_call (fuel : nat) (bot : SlackBot) (collect_key : string)
    (data : pydict) : task value :=
  let data := <["limit" := VInt 300]> data in
  response <- api_call bot data ;;
  acc <- lift (subscript response collect_key) ;;
  next_cursor <- lift (next_cursor_of response) ;;
  paginate fuel bot collect_key data acc next_cursor.

(** *** The directory *)

(** The dict comprehension [{u[key]: u[val] for u in items}]. *)
Fixpoint build_table (key val : string) (items : list value) (acc : table) : exn + table :=
  match items with
  | [] => inr acc
  | u :: rest =>
      match subscript u key with
      | inl e => inl e
      | inr k =>
          match subscript u val with
          | inl e => inl e
          | inr v =>
              match table_set acc k v with
              | inl e => inl e
              | inr acc' => build_table key val rest acc'
              end
          end
      end
  end.

Definition set_id_to_user (bot : SlackBot) (t : table) : SlackBot :=
  {| token := token bot; report_to_user := report_to_user bot; me := me bot;
     id_to_user := t; user_to_id := user_to_id bot;
     id_to_channel := id_to_channel bot; channel_to_id := channel_to_id bot |}.

Definition set_user_to_id (bot : SlackBot) (t : table) : SlackBot :=
  {| token := token bot; report_to_user := report_to_user bot; me := me bot;
     id_to_user := id_to_user bot; user_to_id := t;
     id_to_channel := id_to_channel bot; channel_to_id := channel_to_id bot |}.

Definition set_id_to_channel (bot : SlackBot) (t : table) : SlackBot :=
  {| token := token bot; report_to_user := report_to_user bot; me := me bot;
     id_to_user := id_to_user bot; user_to_id := user_to_id bot;
     id_to_channel := t; channel_to_id := channel_to_id bot |}.

Definition set_channel_to_id (bot : SlackBot) (t : table) : SlackBot :=
  {| token := token bot; report_to_user := report_to_user bot; me := me bot;
     id_to_user := id_to_user bot; user_to_id := user_to_id bot;
     id_to_channel := id_to_channel bot; channel_to_id := t |}.

Definition set_me (bot : SlackBot) (id : value) : SlackBot :=
  {| token := token bot; report_to_user := report_to_user bot; me := id;
     id_to_user := id_to_user bot; user_to_id := user_to_id bot;
     id_to_channel := id_to_channel bot; channel_to_id := channel_to_id bot |}.

(** The two assignments that follow a listing: each table is built in
    full before it is assigned, and the first assignment stands when the
    second comprehension raises. *)
Definition assign_tables (set_by_id set_by_name : SlackBot -> table -> SlackBot)
    (bot : SlackBot) (listing : value) : SlackBot * outcome unit :=
  match iterate listing with
  | inl e => (bot, Raise e)
  | inr items =>
      match build_table "id" "name" items [] with
      | inl e => (bot, Raise e)
      | inr by_id =>
          let bot := set_by_id bot by_id in
          match build_table "name" "id" items [] with
          | inl e => (bot, Raise e)
          | inr by_name => (set_by_name bot by_name, Return tt)
          end
      end
  end.

(** A coroutine of the bot that assigns to the bot's attributes: the bot
    as it leaves it comes back next to the outcome. *)
Definition bot_task : Type := SlackBot -> world -> SlackBot * outcome unit * world.

Definition load_user_map (fuel : nat) : bot_task :=
  fun bot w =>
    match paginated_api_call fuel bot "members" {[ "method" := VStr "users.list" ]} w with
    | (Return users, w') => (assign_tables set_id_to_user set_user_to_id bot users, w')
    | (Raise e, w') => (bot, Raise e, w')
    | (Suspended, w') => (bot, Suspended, w')
    end.

Definition load_channel_map (fuel : nat) : bot_task :=
  fun bot w =>
    match paginated_api_call fuel bot "channels"
            (<["types" := VStr "public_channel,private_channel"]>
               {[ "method" := VStr "conversations.list" ]}) w with
    | (Return channels, w') =>
        (assign_tables set_id_to_channel set_channel_to_id bot channels, w')
    | (Raise e, w') => (bot, Raise e, w')
    | (Suspended, w') => (bot, Suspended, w')
    end.

(** [asyncio.gather(a, b)]: both coroutines run; the first exception is
    the gather's, and the other coroutine is not cancelled by it. *)
Definition gather (a b : bot_task) : bot_task :=
  fun bot w =>
    let '(bot1, oa, w1) := a bot w in
    let '(bot2, ob, w2) := b bot1 w1 in
    (bot2,
     match oa, ob with
     | Raise e, _ => Raise e
     | _, Raise e => Raise e
     | Suspended, _ => Suspended
     | _, Suspended => Suspended
     | Return _, Return _ => Return tt
     end,
     w2).

(** *** The connection loop ([run]) *)

(** Where [run] stands between two awaits on the socket. *)
Inductive phase :=
| Handshaking
| Receiving
| HeartbeatPending
| Finished (o : outcome unit).

(** What the socket library does at the await [run] is waiting in:
    [websockets.connect] enters or raises; [wait_for(ws.recv(), 20)]
    yields a frame (with what [json.loads] makes of it) or raises, with
    [TimeoutError] for the idle timeout; [wait_for(ws.ping(), 10)]
    completes or raises, with [TimeoutError] for its own timeout. *)
Inductive socket_input :=
| Connect (failure : option exn)
| Recv (frame : exn + (exn + value))
| Ping (failure : option exn).

(** Leaving the outer [try]: [except websockets.ConnectionClosed: pass]
    goes round the loop, any other exception leaves [run]. *)
Definition leave (e : exn) : phase :=
  match e with
  | ConnectionClosed => Handshaking
  | _ => Finished (Raise e)
  end.

Definition leave_with {A} (o : outcome A) (next : A -> phase) : phase :=
  match o with
  | Return a => next a
  | Raise e => leave e
  | Suspended => Finished Suspended
  end.

(** One pass from the top of the outer loop to the receive loop. *)
Definition connect (fuel : nat) (rules : list rule) (failure : option exn)
    (bot : SlackBot) (w : world) : SlackBot * phase * world :=
  match api_call bot {[ "method" := VStr "rtm.connect" ]} w with
  | (Return response, w1) =>
      match subscript response "ok" with
      | inl e => (bot, leave e, w1)
      | inr ok =>
          if negb (truthy ok) then (bot, Finished (Return tt), w1) else
          match subscript response "url", failure with
          | inl e, _ => (bot, leave e, w1)
          | inr _, Some e => (bot, leave e, w1)
          | inr _, None =>
              match subscript response "self" with
              | inl e => (bot, leave e, w1)
              | inr self =>
                  match subscript self "id" with
                  | inl e => (bot, leave e, w1)
                  | inr id =>
                      let bot := set_me bot id in
                      let '(bot, loaded, w2) :=
                        gather (load_user_map fuel) (load_channel_map fuel) bot w1 in
                      match loaded with
                      | Return _ =>
                          let '(o, w3) :=
                            _handle_futures bot
                              (map (fun r => rule_load r bot) rules) false w2 in
                          (bot, leave_with o (fun _ => Receiving), w3)
                      | Raise e => (bot, leave e, w2)
                      | Suspended => (bot, Finished Suspended, w2)
                      end
                  end
              end
          end
      end
  | (Raise e, w1) => (bot, leave e, w1)
  | (Suspended, w1) => (bot, Finished Suspended, w1)
  end.

(** [asyncio.ensure_future(self._process_event(event))]: the batch is
    launched and its outcome is nobody's to await.  Here the batch over a
    frame runs before the next await on the socket, and only a frame that
    decodes to an object is followed into its batch. *)
Definition launch (bot : SlackBot) (rules : list rule) (decoded : value)
    (w : world) : world :=
  match decoded with
  | VDict event_dict => snd (_process_event bot rules event_dict w)
  | _ => w
  end.

(** One await of [run] on the socket, and what follows up to the next. *)
Definition run_step (fuel : nat) (rules : list rule) (p : phase) (i : socket_input)
    (bot : SlackBot) (w : world) : SlackBot * phase * world :=
  match p, i with
  | Handshaking, Connect failure => connect fuel rules failure bot w
  | Receiving, Recv (inr (inr decoded)) => (bot, Receiving, launch bot rules decoded w)
  | Receiving, Recv (inr (inl e)) => (bot, leave e, w)
  | Receiving, Recv (inl TimeoutError) => (bot, HeartbeatPending, w)
  | Receiving, Recv (inl e) => (bot, leave e, w)
  | HeartbeatPending, Ping None => (bot, Receiving, w)
  | HeartbeatPending, Ping (Some e) => (bot, leave e, w)
  | _, _ => (bot, p, w)
  end.

(** [run] against a script of socket behaviour. *)
Fixpoint run (fuel : nat) (rules : list rule) (script : list socket_input)
    (p : phase) (bot : SlackBot) (w : world) : SlackBot * phase * world :=
  match script with
  | [] => (bot, p, w)
  | i :: rest =>
      let '(bot', p', w') := run_step fuel rules p i bot w in
      run fuel rules rest p' bot' w'
  end.

End Runtime.

(** * Vocabulary of the statements *)

(** The store after [event[k]] has been evaluated. *)
Definition touched (k : string) (ev : pydict) : pydict :=
  match ev !! k with
  | Some _ => ev
  | None => <[k := VNone]> ev
  end.

(** An identifier field as the gateway sends it: a string, or nothing. *)
Definition is_id (v : value) : bool :=
  match v with
  | VNone | VStr _ => true
  | _ => false
  end.

(** A world with nothing sent and nothing logged. *)
Definition blank (ev : pydict) : world := World ev [] [] [].

(** Case tables that lower-case ASCII letters and leave every other byte
    as it is: what the interpreter's tables do on ASCII text. *)
Definition ascii_tables : CaseTables :=
  {| lower := ascii_lower; lower_ascii_text := fun s _ => eq_refl |}.

(** A bot that knows the channel [C1] as [general] and the account [U1]
    as [simba], and reports to the operator [U0]. *)
Definition sample_bot : SlackBot :=
  {| token := "xoxb";
     report_to_user := Some "U0";
     me := VStr "UBOT";
     id_to_user := [(VStr "U1", VStr "simba")];
     user_to_id := [(VStr "simba", VStr "U1")];
     id_to_channel := [(VStr "C1", VStr "general")];
     channel_to_id := [(VStr "general", VStr "C1")] |}.

(** A message posted by [U1] in [C1]. *)
Definition sample_message (text : value) : pydict :=
  <["text" := text]>
    (<["user" := VStr "U1"]>
       (<["channel" := VStr "C1"]> {[ "type" := VStr "message" ]})).

(** A gateway that answers every request with [{"ok": true}]. *)
Definition agreeable_gateway : list request -> request -> outcome value :=
  fun _ _ => Return (VDict {[ "ok" := VBool true ]}).

(** Renderings for the examples: they name what they render. *)
Definition show_value (v : option value) : string :=
  match v with
  | Some (VStr s) => s
  | Some VNone => "None"
  | Some _ => "..."
  | None => "-"
  end.
Definition show_event (ev : option pydict) : string :=
  match ev with
  | None => "None"
  | Some d =>
      "{user_name: " ++ show_value (d !! "user_name") ++
      ", channel_name: " ++ show_value (d !! "channel_name") ++
      ", text: " ++ show_value (d !! "text") ++ "}"
  end.
Definition show_exn (e : exn) : string :=
  match e with
  | KeyError k => k
  | OtherError what => what
  | _ => "error"
  end.
Definition show_rule (r : rule) : string := rule_name r.

(** A rule that answers every event with one message to [C1]. *)
Definition greeting : pydict :=
  <["text" := VStr "hello"]>
    (<["channel" := VStr "C1"]> {[ "method" := VStr "chat.postMessage" ]}).
Definition greeter : rule :=
  Rule "greeter" (fun _ => ret tt) (fun _ => ret [greeting]).

(** A rule whose reaction raises. *)
Definition broken : rule :=
  Rule "broken" (fun _ => ret tt) (fun _ => raise (OtherError "boom")).

(** A rule whose reaction never completes. *)
Definition sleeper : rule :=
  Rule "sleeper" (fun _ => ret tt) (fun _ w => (Suspended, w)).

(** The event of a new member: [user] is the member, an object. *)
Definition team_join : pydict :=
  <["user" := VDict (<["name" := VStr "nala"]> {[ "id" := VStr "U2" ]})]>
    {[ "type" := VStr "team_join" ]}.

(** The readable rendering of the message [hi] of [U1] in [C1]. *)
Definition readable_hi : pydict :=
  <["user_name" := VStr "simba"]>
    (<["channel_name" := VStr "general"]> (sample_message (VStr "hi"))).

(** A message the bot posted itself. *)
Definition own_message : pydict :=
  <["user" := VStr "UBOT"]> (sample_message (VStr "hello")).

(** Two stores that the total lookup cannot tell apart. *)
Definition same_lookups (ev ev' : pydict) : Prop :=
  forall k, event_value ev' k = event_value ev k.

(** The second store is the first one, except that a [text] that was
    [None] may have become the empty string. *)
Definition normalised (ev ev' : pydict) : Prop :=
  forall k,
    event_value ev' k = event_value ev k \/
    (k = "text" /\ event_value ev "text" = VNone /\ event_value ev' "text" = VStr "").

(** A task relates the event it finds to the event it leaves by [R]. *)
Definition frames (R : pydict -> pydict -> Prop) {A} (t : task A) : Prop :=
  forall w, R (event w) (event (snd (t w))).

(** A task that leaves every lookup of the event as it found it. *)
Definition reads_only {A} (t : task A) : Prop := frames same_lookups t.

(** A containment rule on the default pipeline: its channels, its query
    strings and its reply. *)
Definition contains_rule {tables : CaseTables} (name : string)
    (channels queries : list string) (reply : string) : rule :=
  Rule name (fun _ => SlackRule.load)
    (fun bot =>
       SlackRule.react
         (SlackRule.should_respond_to_event
            (SlackRule.should_respond_to_channel bot (ret channels))
            (MessageContainsRule.should_respond_to_message (ret queries)))
         (SlackRule.respond (ret (OneText reply)))).

(** A rule that posts the [text] it finds in the event. *)
Definition probe : rule :=
  Rule "probe" (fun _ => ret tt)
    (fun _ =>
       text <- event_getitem "text" ;;
       ret [ <["text" := text]> {[ "method" := VStr "probe.seen" ]} ]).

(** A message in [C1] that carries no text. *)
Definition textless_message : pydict :=
  <["user" := VStr "U1"]>
    (<["channel" := VStr "C1"]> {[ "type" := VStr "message" ]}).

(** The [text] parameters of the requests posted under a method. *)
Definition texts_posted (method : string) (l : list request) : list (option value) :=
  map (fun r => req_data r !! "text")
    (List.filter (fun r => py_eq (req_method r) (VStr method)) l).

(** A task that raises no missing-key fault. *)
Definition no_key_error {A} (t : task A) : Prop :=
  forall w k, fst (t w) <> Raise (KeyError k).

(** A snippet-or-containment rule on the default pipeline; every download
    yields [body]. *)
Definition snippet_rule {tables : CaseTables} (name : string)
    (channels queries : list string) (body reply : string) : rule :=
  Rule name (fun _ => SlackRule.load)
    (fun bot =>
       SlackRule.react
         (SlackRule.should_respond_to_event
            (SlackRule.should_respond_to_channel bot (ret channels))
            (SnippetOrMessageContainsRule.should_respond_to_message
               (ret queries) (fun _ => ret body)))
         (SlackRule.respond (ret (OneText reply)))).

(** A file-share message whose [file] field is missing, and one whose
    [file] is an object without [mode]. *)
Definition share_without_file : pydict :=
  <["subtype" := VStr "file_share"]> (sample_message (VStr "see attached")).
Definition share_with_empty_file : pydict :=
  <["file" := VDict ∅]> share_without_file.

(** One page of a listing as the gateway returned it: the items under the
    collect key and the value of [next_cursor] ([None] when the response
    carries none). *)
Record page := Page { page_items : list value; page_cursor : value }.

Definition is_page (collect_key : string) (p : page) (response : value) : Prop :=
  subscript response collect_key = inr (VList (page_items p)) /\
  next_cursor_of response = inr (page_cursor p).

(** The request of the first page, and the request that follows the
    cursor [c]: both carry [limit=300] and the token, and the method is in
    the URL. *)
Definition first_request (bot : SlackBot) (method : value) (data : pydict) : request :=
  Request method
    (<["token" := VStr (token bot)]> (delete "method" (<["limit" := VInt 300]> data))).

Definition next_request (bot : SlackBot) (method : value) (data : pydict) (c : value) : request :=
  Request method
    (<["token" := VStr (token bot)]>
       (delete "method" (<["cursor" := c]> (<["limit" := VInt 300]> data)))).

(** The gateway answers [req], sent after [history], with the first of
    [pages]; every page but the last carries a cursor that counts as true
    and the request that follows it is answered with the next page; the
    cursor of the last page is missing, [None] or empty. *)
Fixpoint serves (gateway : list request -> request -> outcome value)
    (collect_key : string) (next : value -> request)
    (history : list request) (req : request) (pages : list page) : Prop :=
  match pages with
  | [] => False
  | p :: rest =>
      exists response,
        gateway history req = Return response /\
        is_page collect_key p response /\
        match rest with
        | [] => truthy (page_cursor p) = false
        | _ :: _ =>
            truthy (page_cursor p) = true /\
            serves gateway collect_key next (history ++ [req]) (next (page_cursor p)) rest
        end
  end.

(** The cursors that are followed: the one at hand, then the cursor of
    each page but the last. *)
Fixpoint followed_cursors (c : value) (pages : list page) : list value :=
  match pages with
  | [] => []
  | p :: rest => c :: followed_cursors (page_cursor p) rest
  end.

(** A listing of 250 members served in pages of 100, 100 and 50. *)
Definition members (from count : Z) : list value := map VInt (seqZ from count).

Definition listing_page (items : list value) (cursor : option string) : value :=
  match cursor with
  | Some c =>
      VDict (<["response_metadata" := VDict {[ "next_cursor" := VStr c ]}]>
               {[ "members" := VList items ]})
  | None => VDict {[ "members" := VList items ]}
  end.

Definition three_page_gateway : list request -> request -> outcome value :=
  fun _ req =>
    match req_data req !! "cursor" with
    | None => Return (listing_page (members 0 100) (Some "c1"))
    | Some (VStr "c1") => Return (listing_page (members 100 100) (Some "c2"))
    | Some (VStr "c2") => Return (listing_page (members 200 50) None)
    | Some _ => Raise (OtherError "invalid_cursor")
    end.

Definition three_pages : list page :=
  [Page (members 0 100) (VStr "c1");
   Page (members 100 100) (VStr "c2");
   Page (members 200 50) VNone].

(** A gateway whose only page closes with an empty cursor, as the last
    page of a listing does. *)
Definition empty_cursor_gateway : list request -> request -> outcome value :=
  fun _ _ => Return (listing_page [VInt 1] (Some "")).

Definition users_list : pydict := {[ "method" := VStr "users.list" ]}.

(** ** Vocabulary of the dispatcher *)

(** The second world continues the first: what was sent and logged is
    still there, in front, and the event still names the same channel and
    the same user. *)
Definition world_le (w w' : world) : Prop :=
  sent w `prefix_of` sent w' /\
  journal w `prefix_of` journal w' /\
  event_value (event w') "channel" = event_value (event w) "channel" /\
  event_value (event w') "user" = event_value (event w) "user".

(** A task that only adds to the traffic and to the log, and leaves the
    identifiers of the event alone. *)
Definition well_behaved {A} (t : task A) : Prop :=
  forall w, world_le w (snd (t w)).

(** A gateway that answers every request. *)
Definition answers (gateway : list request -> request -> outcome value) : Prop :=
  forall history req, exists body, gateway history req = Return body.

(** An action that can be passed to [api_call] as keywords: it names its
    method, and it has no keyword [self]. *)
Definition valid_action (action : pydict) : Prop :=
  is_Some (action !! "method") /\ action !! "self" = None.

(** The request [api_call] posts for an action. *)
Definition action_request (bot : SlackBot) (action : pydict) : request :=
  Request (default VNone (action !! "method"))
    (<["token" := VStr (token bot)]> (delete "method" action)).

(** The message to the operator that mirrors a log line, when an operator
    is configured. *)
Definition report_requests (bot : SlackBot) (message : string) : list request :=
  match report_to_user bot with
  | Some user =>
      if String.eqb user "" then []
      else [action_request bot
              (<["text" := VStr message]>
                 (<["channel" := VStr user]> (<["method" := VStr "chat.postMessage"]> ∅)))]
  | None => []
  end.





Section Reports.

Variable repr_event : option pydict -> string.
Variable str_exn : exn -> string.
Variable format_exc : exn -> string.


End Reports.


(** * Further vocabulary *)

(** [AreYouListening] of [examples.py]: a containment rule for the channel
    [random]. *)
Definition AreYouListening {tables : CaseTables} : rule :=
  contains_rule "AreYouListening" ["random"]
    ["are you there"; "are you listening"]
    "Yes. You can't see me, but I'm right behind you.".

(** The action the default responder builds for one text: a
    [chat.postMessage] to the event's channel, in the event's thread when
    it has one. *)
Definition reply (channel thread_ts : value) (text : string) : pydict :=
  <["text" := VStr text]>
    (match thread_ts with
     | VNone => fun m => m
     | _ => <["thread_ts" := thread_ts]>
     end
       (<["as_user" := VBool true]>
          (<["channel" := channel]> (<["method" := VStr "chat.postMessage"]> ∅)))).

(** The texts of a response. *)
Definition texts_of (r : response_text) : list string :=
  match r with
  | OneText s => [s]
  | Texts l => l
  end.

(** A subclass of [SlackRule] that overrides nothing. *)
Definition bare_rule : rule :=
  Rule "bare" (fun _ => SlackRule.load)
    (fun bot =>
       SlackRule.react
         (SlackRule.should_respond_to_event
            (SlackRule.should_respond_to_channel bot SlackRule.not_implemented)
            SlackRule.not_implemented)
         (SlackRule.respond SlackRule.not_implemented)).

(** Whether the directory resolves a channel id to the name [name]. *)
Definition resolves_to (bot : SlackBot) (channel_id : value) (name : string) : bool :=
  match assoc (id_to_channel bot) channel_id with
  | Some found => py_eq found (VStr name)
  | None => false
  end.

(** An item of a listing with the id [i] and the name [n]. *)
Definition is_entry (item : value) (entry : string * string) : Prop :=
  subscript item "id" = inr (VStr (fst entry)) /\
  subscript item "name" = inr (VStr (snd entry)).

(** The dict a comprehension builds from key-value pairs: a later pair
    replaces an earlier one with the same key. *)
Definition last_wins (entries : list (string * string)) : gmap string string :=
  list_to_map (reverse entries).

Definition swap_entry (entry : string * string) : string * string :=
  (snd entry, fst entry).

(** The request of a listing: [users.list]. *)
Definition members_call : pydict := {[ "method" := VStr "users.list" ]}.

(** The request of the handshake: [rtm.connect] with the bot's token. *)
Definition handshake_request (bot : SlackBot) : request :=
  action_request bot {[ "method" := VStr "rtm.connect" ]}.

(** The request of the channel listing. *)
Definition channels_call : pydict :=
  <["types" := VStr "public_channel,private_channel"]>
    {[ "method" := VStr "conversations.list" ]}.

(** ** Samples for the further properties *)

(** An action that lacks its method. *)
Definition methodless : pydict := {[ "text" := VStr "lost" ]}.

(** An action with a keyword named [self]. *)
Definition selfish : pydict := <["self" := VStr "me"]> greeting.

(** A message whose channel is a number, and a direct message. *)
Definition numbered_message : pydict :=
  <["channel" := VInt 5]> (sample_message (VStr "hi")).
Definition direct_message : pydict :=
  <["channel" := VStr "D123"]> (sample_message (VStr "hi")).

(** A message in a thread. *)
Definition threaded_message : pydict :=
  <["thread_ts" := VStr "1700000000.000100"]> (sample_message (VStr "hi")).

(** A shared snippet. *)
Definition shared_snippet : pydict :=
  <["file" := VDict (<["url_private" := VStr "https://files/1"]>
                       {[ "mode" := VStr "snippet" ]})]> share_without_file.

(** A bot whose directory names the channel [C1] as [random]. *)
Definition random_bot : SlackBot :=
  {| token := "xoxb";
     report_to_user := None;
     me := VStr "UBOT";
     id_to_user := [];
     user_to_id := [];
     id_to_channel := [(VStr "C1", VStr "random")];
     channel_to_id := [(VStr "random", VStr "C1")] |}.

(** A gateway that serves one page with a cursor and fails afterwards. *)
Definition flaky_gateway : list request -> request -> outcome value :=
  fun _ req =>
    match req_data req !! "cursor" with
    | None => Return (listing_page (members 0 2) (Some "c1"))
    | Some _ => Raise (OtherError "connection reset")
    end.

(** Members and channels of a small team, and a gateway that approves
    the handshake and lists them. *)
Definition member (id name : string) : value :=
  VDict (<["name" := VStr name]> {[ "id" := VStr id ]}).

Definition team_users : list value :=
  [member "U1" "simba"; member "U2" "nala"].
Definition team_channels : list value :=
  [member "C1" "general"].

Definition approval : value :=
  VDict (<["self" := VDict {[ "id" := VStr "UBOT" ]}]>
           (<["url" := VStr "wss://gateway/1"]> {[ "ok" := VBool true ]})).

Definition team_gateway : list request -> request -> outcome value :=
  fun _ req =>
    match req_method req with
    | VStr "rtm.connect" => Return approval
    | VStr "users.list" => Return (VDict {[ "members" := VList team_users ]})
    | VStr "conversations.list" => Return (VDict {[ "channels" := VList team_channels ]})
    | _ => Return (VDict ∅)
    end.

(** A gateway whose listing holds a member without an id. *)
Definition nameless_gateway : list request -> request -> outcome value :=
  fun _ _ =>
    Return (VDict {[ "members" :=
                       VList [member "U1" "simba"; VDict {[ "name" := VStr "ghost" ]}] ]}).

(** A gateway that refuses the handshake. *)
Definition refusing_gateway : list request -> request -> outcome value :=
  fun _ _ => Return (VDict {[ "ok" := VBool false ]}).


(** * Properties *)

(** ** The event dictionary *)

Lemma event_getitem_eq k w :
  event_getitem k w = (Return (event_value (event w) k), set_event (touched k) w).
Proof.
  unfold event_getitem, event_value, dict_get, touched, set_event.
  destruct w as [ev s j c]; simpl.
  destruct (ev !! k); reflexivity.
Qed.

Lemma event_value_touched k k' ev :
  event_value (touched k ev) k' = event_value ev k'.
Proof.
  unfold event_value, dict_get, touched.
  destruct (ev !! k) eqn:E; [reflexivity|].
  destruct (decide (k = k')) as [->|Hne].
  - rewrite lookup_insert_eq, E. reflexivity.
  - rewrite lookup_insert_ne by assumption. reflexivity.
Qed.

Lemma py_eq_str v s : py_eq v (VStr s) = true <-> v = VStr s.
Proof.
  destruct v; simpl; split; try discriminate; try congruence.
  - intros H. apply String.eqb_eq in H. congruence.
  - intros [= ->]. apply String.eqb_refl.
Qed.

Lemma py_eq_str_false v s : v <> VStr s -> py_eq v (VStr s) = false.
Proof.
  intros H. destruct (py_eq v (VStr s)) eqn:E; [|reflexivity].
  apply py_eq_str in E. contradiction.
Qed.

Lemma bind_apply {A B} (m : task A) (f : A -> task B) (w : world) :
  bind m f w =
    match m w with
    | (Return a, w') => f a w'
    | (Raise e, w') => (Raise e, w')
    | (Suspended, w') => (Suspended, w')
    end.
Proof. reflexivity. Qed.

(** One step of a task applied to a world: open the binds that are
    applied, read the event, and reduce what has become a redex. *)
Ltac step_task :=
  rewrite ?bind_apply; rewrite ?event_getitem_eq;
  cbv beta iota; unfold set_event, add_sent, add_journal, add_cancelled;
  cbn [event sent journal cancelled].

(** ** Events authored by the bot itself *)

Section OwnEvents.

Variable gateway : list request -> request -> outcome value.
Variable repr_event : option pydict -> string.
Variable str_exn : exn -> string.
Variable format_exc : exn -> string.
Variable repr_rule : rule -> string.

(** C1.  An event whose [user] equals the bot's own identity is dropped
    before any rule is reached: whatever the rules are, processing
    returns at once, posts nothing to the gateway and logs nothing; the
    only trace is the lookup of [user] in the event dictionary. *)
Theorem own_event_is_dropped (bot : SlackBot) (rules : list rule)
    (event_dict : pydict) (w : world) :
  py_eq (event_value event_dict "user") (me bot) = true ->
  _process_event gateway repr_event str_exn format_exc repr_rule bot rules event_dict w =
    (Return tt, World (touched "user" event_dict) (sent w) (journal w) (cancelled w)).
Proof.
  intros Hme. unfold _process_event, bind.
  rewrite event_getitem_eq. simpl. rewrite Hme.
  destruct w; reflexivity.
Qed.

End OwnEvents.

Lemma own_event_is_dropped_witness :
  _process_event agreeable_gateway show_event show_exn show_exn show_rule
    sample_bot [greeter; broken] own_message (blank ∅) =
    (Return tt, World (touched "user" own_message) [] [] []).
Proof.
  apply (own_event_is_dropped agreeable_gateway show_event show_exn show_exn show_rule
           sample_bot [greeter; broken] own_message (blank ∅)).
  vm_compute. reflexivity.
Defined.

(** ** The default filters *)

(** C7.  For an event whose [type] is not ["message"], the default event
    filter answers [False] whatever the rule's channel and message
    filters are, and without calling them; the reaction built on it is
    the empty list. *)
Theorem non_message_event_is_ignored
    (channel_filter : value -> task bool) (message_filter : task bool)
    (respond : task (list pydict)) (w : world) :
  event_value (event w) "type" <> VStr "message" ->
  SlackRule.should_respond_to_event channel_filter message_filter w =
    (Return false, set_event (touched "type") w) /\
  SlackRule.react (SlackRule.should_respond_to_event channel_filter message_filter) respond w =
    (Return [], set_event (touched "type") w).
Proof.
  intros Hty.
  assert (H : SlackRule.should_respond_to_event channel_filter message_filter w =
              (Return false, set_event (touched "type") w)).
  { unfold SlackRule.should_respond_to_event, bind.
    rewrite event_getitem_eq.
    rewrite (py_eq_str_false _ _ Hty). reflexivity. }
  split; [exact H|].
  unfold SlackRule.react, bind. rewrite H. reflexivity.
Qed.

Lemma non_message_event_is_ignored_witness :
  SlackRule.should_respond_to_event (fun _ => ret true) (ret true)
    (blank (<["type" := VStr "reaction_added"]> (sample_message (VStr "love me")))) =
    (Return false,
     set_event (touched "type")
       (blank (<["type" := VStr "reaction_added"]> (sample_message (VStr "love me"))))) /\
  SlackRule.react (SlackRule.should_respond_to_event (fun _ => ret true) (ret true))
    (ret [greeting])
    (blank (<["type" := VStr "reaction_added"]> (sample_message (VStr "love me")))) =
    (Return [],
     set_event (touched "type")
       (blank (<["type" := VStr "reaction_added"]> (sample_message (VStr "love me"))))).
Proof.
  apply (non_message_event_is_ignored (fun _ => ret true) (ret true) (ret [greeting])).
  vm_compute. discriminate.
Defined.

(** A channel id that resolves to a name is accepted exactly when the
    name is in the rule's list of applicable channels. *)
Lemma known_channel_is_looked_up (bot : SlackBot)
    (applicable_channels : task (list string)) (channel_id : value) (w w' : world)
    (name : string) (channels : list string) :
  hashable channel_id = true ->
  assoc (id_to_channel bot) channel_id = Some (VStr name) ->
  applicable_channels w = (Return channels, w') ->
  SlackRule.should_respond_to_channel bot applicable_channels channel_id w =
    (Return (bool_decide (name ∈ channels)), w').
Proof.
  intros Hh Hname Hchan.
  unfold SlackRule.should_respond_to_channel, bind, table_get.
  rewrite Hh, Hname. simpl. rewrite Hchan. unfold ret. do 2 f_equal.
  clear. induction channels as [|c cs IH]; simpl.
  - reflexivity.
  - rewrite IH. destruct (String.eqb_spec name c) as [->|Hne].
    + simpl. symmetry. apply bool_decide_eq_true. left.
    + simpl. destruct (bool_decide (name ∈ cs)) eqn:E.
      * apply bool_decide_eq_true in E. symmetry. apply bool_decide_eq_true.
        right. exact E.
      * apply bool_decide_eq_false in E. symmetry. apply bool_decide_eq_false.
        intros Hin. apply elem_of_cons in Hin as [?|?]; congruence.
Qed.

(** C10.  The default channel filter answers [False] for a channel id
    that the id-to-name table does not hold (an unknown channel, or the
    [None] of a missing channel field), whatever the rule's list of
    applicable channel names is, and without asking for that list. *)
Theorem unknown_channel_is_refused (bot : SlackBot)
    (applicable_channels : task (list string)) (channel_id : value) (w : world) :
  hashable channel_id = true ->
  assoc (id_to_channel bot) channel_id = None ->
  SlackRule.should_respond_to_channel bot applicable_channels channel_id w =
    (Return false, w).
Proof.
  intros Hh Habs.
  unfold SlackRule.should_respond_to_channel, bind, table_get.
  rewrite Hh, Habs. reflexivity.
Qed.

Lemma unknown_channel_is_refused_witness :
  SlackRule.should_respond_to_channel sample_bot (ret ["general"]) VNone (blank ∅) =
    (Return false, blank ∅) /\
  SlackRule.should_respond_to_channel sample_bot (ret ["general"]) (VStr "C404") (blank ∅) =
    (Return false, blank ∅).
Proof.
  split.
  - apply (unknown_channel_is_refused sample_bot (ret ["general"]) VNone (blank ∅));
      reflexivity.
  - apply (unknown_channel_is_refused sample_bot (ret ["general"]) (VStr "C404") (blank ∅));
      reflexivity.
Defined.

(** ** Substring matching *)



Lemma existsb_elem_of {A} (f : A -> bool) (l : list A) :
  existsb f l = true <-> exists x, x ∈ l /\ f x = true.
Proof.
  rewrite existsb_exists. split; intros [x [Hin Hf]]; exists x; split; auto;
    now apply list_elem_of_In.
Qed.

(** With a text in the event, the scan of the queries is a plain [any]
    over the lowered text and leaves the event as it is. *)
Lemma any_query_in_text_eq {tables : CaseTables} (queries : list string) (w : world)
    (text : string) :
  event w !! "text" = Some (VStr text) ->
  MessageContainsRule.any_query_in_text queries w =
    (Return (existsb (fun q => str_contains q (lower text)) queries), w).
Proof.
  intros Htext. induction queries as [|q qs IH]; simpl; [reflexivity|].
  unfold bind, event_getitem. rewrite Htext.
  destruct (str_contains q (lower text)); [reflexivity | exact IH].
Qed.





(** ** What the pipeline does to the event *)

Lemma same_lookups_refl ev : same_lookups ev ev.
Proof. intros k. reflexivity. Qed.

Lemma same_lookups_trans a b c :
  same_lookups a b -> same_lookups b c -> same_lookups a c.
Proof. intros H1 H2 k. rewrite H2. apply H1. Qed.

Lemma same_lookups_touched k ev : same_lookups ev (touched k ev).
Proof. intros k'. apply event_value_touched. Qed.

Lemma normalised_of_same a b : same_lookups a b -> normalised a b.
Proof. intros H k. left. apply H. Qed.

Lemma normalised_then_same a b c :
  normalised a b -> same_lookups b c -> normalised a c.
Proof.
  intros H1 H2 k. destruct (H1 k) as [E | (-> & E1 & E2)].
  - left. rewrite H2. exact E.
  - right. rewrite H2. auto.
Qed.

Lemma same_then_normalised a b c :
  same_lookups a b -> normalised b c -> normalised a c.
Proof.
  intros H1 H2 k. destruct (H2 k) as [E | (-> & E1 & E2)].
  - left. rewrite E. apply H1.
  - right. rewrite <- (H1 "text"). auto.
Qed.

Lemma frames_ret R {A} (a : A) : (forall ev, R ev ev) -> frames R (ret a).
Proof. intros HR w. apply HR. Qed.

Lemma frames_raise R {A} (e : exn) : (forall ev, R ev ev) -> frames R (@raise A e).
Proof. intros HR w. apply HR. Qed.

Lemma reads_only_lift {A} (r : exn + A) : reads_only (lift r).
Proof. destruct r; intros w; apply same_lookups_refl. Qed.

Lemma reads_only_getitem k : reads_only (event_getitem k).
Proof.
  intros w. rewrite event_getitem_eq. destruct w; simpl. apply same_lookups_touched.
Qed.

Lemma reads_only_bind {A B} (m : task A) (f : A -> task B) :
  reads_only m -> (forall a, reads_only (f a)) -> reads_only (bind m f).
Proof.
  intros Hm Hf w. unfold bind. specialize (Hm w).
  destruct (m w) as [[a|e|] w1]; simpl in *; try exact Hm.
  eapply same_lookups_trans; [exact Hm | apply Hf].
Qed.

Lemma normalised_bind {A B} (m : task A) (f : A -> task B) :
  reads_only m -> (forall a, frames normalised (f a)) -> frames normalised (bind m f).
Proof.
  intros Hm Hf w. unfold bind. specialize (Hm w).
  destruct (m w) as [[a|e|] w1]; simpl in *; try (apply normalised_of_same; exact Hm).
  eapply same_then_normalised; [exact Hm | apply Hf].
Qed.

Lemma normalised_bind_same {A B} (m : task A) (f : A -> task B) :
  frames normalised m -> (forall a, reads_only (f a)) -> frames normalised (bind m f).
Proof.
  intros Hm Hf w. unfold bind. specialize (Hm w).
  destruct (m w) as [[a|e|] w1]; simpl in *; try exact Hm.
  eapply normalised_then_same; [exact Hm | apply Hf].
Qed.

(** The containment filter only reads the event. *)
Lemma contains_filter_reads_only {tables : CaseTables}
    (get_query_strings : task (list string)) :
  reads_only get_query_strings ->
  reads_only (MessageContainsRule.should_respond_to_message get_query_strings).
Proof.
  intros Hq. apply reads_only_bind; [exact Hq|].
  intros queries. induction queries as [|q qs IH]; simpl.
  - apply frames_ret, same_lookups_refl.
  - apply reads_only_bind; [apply reads_only_getitem|].
    intros [| | |s| |]; try (apply frames_raise, same_lookups_refl).
    destruct (str_contains q (lower s)); [apply frames_ret, same_lookups_refl | exact IH].
Qed.

(** The default channel filter only reads the event. *)
Lemma channel_filter_reads_only bot (get_applicable_channels : task (list string)) c :
  reads_only get_applicable_channels ->
  reads_only (SlackRule.should_respond_to_channel bot get_applicable_channels c).
Proof.
  intros Hc. apply reads_only_bind; [apply reads_only_lift|].
  intros name.
  assert (Hlist : reads_only
            (bind get_applicable_channels
               (fun channels => ret (existsb (fun c0 => py_eq name (VStr c0)) channels)))).
  { apply reads_only_bind; [exact Hc|]. intros l. apply frames_ret, same_lookups_refl. }
  destruct name; try exact Hlist. apply frames_ret, same_lookups_refl.
Qed.

(** The default responder only reads the event. *)
Lemma respond_reads_only (get_response_text : task response_text) :
  reads_only get_response_text ->
  reads_only (SlackRule.respond get_response_text).
Proof.
  intros Hr. unfold SlackRule.respond.
  apply reads_only_bind; [exact Hr|]. intros responses.
  apply reads_only_bind; [apply reads_only_getitem|]. intros channel.
  apply reads_only_bind; [apply reads_only_getitem|]. intros thread_ts.
  apply reads_only_bind.
  - destruct thread_ts; try (apply reads_only_bind; [apply reads_only_getitem|];
      intros ?; apply frames_ret, same_lookups_refl).
    apply frames_ret, same_lookups_refl.
  - intros message. apply frames_ret, same_lookups_refl.
Qed.

(** The step that replaces a [None] text: the one write of the pipeline. *)
Lemma normalise_text_frames {A} (k : task A) :
  reads_only k ->
  frames normalised
    (bind (event_getitem "text")
       (fun text =>
          bind (match text with
                | VNone => event_setitem "text" (VStr "")
                | _ => ret tt
                end) (fun _ => k))).
Proof.
  intros Hk w. unfold bind at 1. rewrite event_getitem_eq.
  destruct (event_value (event w) "text") eqn:Etext;
    try (apply normalised_of_same; unfold bind, ret;
         eapply same_lookups_trans; [|apply Hk];
         destruct w; simpl; apply same_lookups_touched).
  unfold bind, event_setitem.
  eapply normalised_then_same; [|apply Hk].
  destruct w as [ev s j c]; simpl in *. intros key.
  destruct (decide (key = "text")) as [->|Hne].
  - right. repeat split; [exact Etext|].
    unfold event_value, dict_get. rewrite lookup_insert_eq. reflexivity.
  - left. unfold event_value, dict_get at 1.
    rewrite lookup_insert_ne by congruence.
    apply (event_value_touched "text" key ev).
Qed.

Lemma event_filter_frames (channel_filter : value -> task bool) (message_filter : task bool) :
  (forall c, reads_only (channel_filter c)) ->
  reads_only message_filter ->
  frames normalised (SlackRule.should_respond_to_event channel_filter message_filter).
Proof.
  intros Hc Hm. unfold SlackRule.should_respond_to_event.
  apply normalised_bind; [apply reads_only_getitem|]. intros ty.
  destruct (negb (py_eq ty (VStr "message")));
    [apply frames_ret; intros ev; apply normalised_of_same, same_lookups_refl|].
  apply normalised_bind; [apply reads_only_getitem|]. intros channel.
  apply normalised_bind; [apply Hc|]. intros ok.
  destruct (negb ok);
    [apply frames_ret; intros ev; apply normalised_of_same, same_lookups_refl|].
  apply normalise_text_frames. exact Hm.
Qed.

(** C8, as the code has it.  The event is a dictionary that the rules of
    a batch share and that the default event filter writes to.  For a
    rule on the default pipeline whose own filters and response text only
    read the event, a reaction leaves the total lookup of every key as it
    was, with one exception: a [text] that was [None] (or missing) may
    have been replaced in the stored event by the empty string. *)
Theorem only_null_text_is_rewritten
    (channel_filter : value -> task bool) (message_filter : task bool)
    (get_response_text : task response_text) (w : world) :
  (forall c, reads_only (channel_filter c)) ->
  reads_only message_filter ->
  reads_only get_response_text ->
  normalised (event w)
    (event (snd (SlackRule.react
                   (SlackRule.should_respond_to_event channel_filter message_filter)
                   (SlackRule.respond get_response_text) w))).
Proof.
  intros Hc Hm Hr. revert w. unfold SlackRule.react.
  apply normalised_bind_same.
  - apply event_filter_frames; assumption.
  - intros [|]; [apply respond_reads_only; exact Hr | apply frames_ret, same_lookups_refl].
Qed.

(** When the write happens: the event is a message, the channel filter
    accepts it, and the text it then finds is [None]. *)
Lemma null_text_is_rewritten
    (channel_filter : value -> task bool) (message_filter : task bool) (w w2 : world) :
  event_value (event w) "type" = VStr "message" ->
  channel_filter (event_value (event w) "channel")
    (set_event (touched "channel") (set_event (touched "type") w)) = (Return true, w2) ->
  event_value (event w2) "text" = VNone ->
  reads_only message_filter ->
  event_value
    (event (snd (SlackRule.should_respond_to_event channel_filter message_filter w)))
    "text" = VStr "".
Proof.
  intros Hty Hch Htext Hm. unfold SlackRule.should_respond_to_event.
  rewrite bind_apply, event_getitem_eq. cbv beta iota. rewrite Hty.
  cbn [py_eq negb]. rewrite String.eqb_refl. cbn [negb].
  rewrite bind_apply, event_getitem_eq. cbv beta iota.
  replace (event_value (event (set_event (touched "type") w)) "channel")
    with (event_value (event w) "channel")
    by (destruct w; simpl; symmetry; apply event_value_touched).
  rewrite bind_apply, Hch. cbn [negb].
  rewrite bind_apply, event_getitem_eq. cbv beta iota. rewrite Htext.
  rewrite bind_apply. unfold event_setitem at 1. cbv beta iota.
  rewrite (Hm _ "text"). destruct w2 as [ev2 s2 j2 c2]; simpl.
  unfold event_value, dict_get. rewrite lookup_insert_eq. reflexivity.
Qed.

Lemma only_null_text_is_rewritten_witness :
  normalised textless_message
    (event (snd (rule_react
                   (contains_rule (tables := ascii_tables) "love" ["general"] ["love me"]
                      "I do")
                   sample_bot (blank textless_message)))).
Proof.
  apply (only_null_text_is_rewritten
           (SlackRule.should_respond_to_channel sample_bot (ret ["general"]))
           (MessageContainsRule.should_respond_to_message (tables := ascii_tables)
              (ret ["love me"]))
           (ret (OneText "I do")) (blank textless_message)).
  - intros c. apply channel_filter_reads_only. intros w k. reflexivity.
  - apply contains_filter_reads_only. intros w k. reflexivity.
  - intros w k. reflexivity.
Defined.

(** C8, as the claim has it, fails: the event is not immutable.  A
    message without text reaches a containment rule; afterwards the
    stored event binds [text] to the empty string, and a second rule of
    the same batch, which would have read [None], reads the empty
    string. *)
Lemma null_text_is_stored_for_other_rules :
  event_value textless_message "text" = VNone /\
  event_value
    (event (snd (rule_react
                   (contains_rule (tables := ascii_tables) "love" ["general"] ["love me"]
                      "I do")
                   sample_bot (blank textless_message)))) "text" = VStr "" /\
  texts_posted "probe.seen"
    (sent (snd (_process_event agreeable_gateway show_event show_exn show_exn show_rule
                  sample_bot [probe] textless_message (blank ∅)))) = [Some VNone] /\
  texts_posted "probe.seen"
    (sent (snd (_process_event agreeable_gateway show_event show_exn show_exn show_rule
                  sample_bot
                  [contains_rule (tables := ascii_tables) "love" ["general"] ["love me"]
                     "I do"; probe]
                  textless_message (blank ∅)))) = [Some (VStr "")].
Proof.
  repeat split; vm_compute; reflexivity.
Qed.

(** ** Lookups of missing fields *)

Lemma no_key_error_ret {A} (a : A) : no_key_error (ret a).
Proof. intros w k. discriminate. Qed.

Lemma no_key_error_getitem k : no_key_error (event_getitem k).
Proof. intros w k'. rewrite event_getitem_eq. discriminate. Qed.

Lemma no_key_error_bind {A B} (m : task A) (f : A -> task B) :
  no_key_error m -> (forall a, no_key_error (f a)) -> no_key_error (bind m f).
Proof.
  intros Hm Hf w k. unfold bind. specialize (Hm w k).
  destruct (m w) as [[a|e|] w1]; simpl in *; [apply Hf | | discriminate].
  intros [= ->]. apply Hm. reflexivity.
Qed.

Lemma no_key_error_table_get {A} (t : table) (key : value) (f : value -> task A) :
  (forall a, no_key_error (f a)) -> no_key_error (bind (lift (table_get t key)) f).
Proof.
  intros Hf w k. unfold bind, table_get.
  destruct (hashable key); simpl; [apply Hf | discriminate].
Qed.

Lemma channel_filter_no_key_error bot (get_applicable_channels : task (list string)) c :
  no_key_error get_applicable_channels ->
  no_key_error (SlackRule.should_respond_to_channel bot get_applicable_channels c).
Proof.
  intros Hc. apply no_key_error_table_get. intros name.
  assert (Hlist : no_key_error
            (bind get_applicable_channels
               (fun channels => ret (existsb (fun c0 => py_eq name (VStr c0)) channels)))).
  { apply no_key_error_bind; [exact Hc|]. intros l. apply no_key_error_ret. }
  destruct name; try exact Hlist. apply no_key_error_ret.
Qed.

Lemma contains_filter_no_key_error {tables : CaseTables}
    (get_query_strings : task (list string)) :
  no_key_error get_query_strings ->
  no_key_error (MessageContainsRule.should_respond_to_message get_query_strings).
Proof.
  intros Hq. apply no_key_error_bind; [exact Hq|].
  intros queries. induction queries as [|q qs IH]; simpl.
  - apply no_key_error_ret.
  - apply no_key_error_bind; [apply no_key_error_getitem|].
    intros [| | |s| |]; try (intros w k; discriminate).
    destruct (str_contains q (lower s)); [apply no_key_error_ret | exact IH].
Qed.

Lemma event_filter_no_key_error (channel_filter : value -> task bool)
    (message_filter : task bool) :
  (forall c, no_key_error (channel_filter c)) ->
  no_key_error message_filter ->
  no_key_error (SlackRule.should_respond_to_event channel_filter message_filter).
Proof.
  intros Hc Hm. unfold SlackRule.should_respond_to_event.
  apply no_key_error_bind; [apply no_key_error_getitem|]. intros ty.
  destruct (negb (py_eq ty (VStr "message"))); [apply no_key_error_ret|].
  apply no_key_error_bind; [apply no_key_error_getitem|]. intros channel.
  apply no_key_error_bind; [apply Hc|]. intros ok.
  destruct (negb ok); [apply no_key_error_ret|].
  apply no_key_error_bind; [apply no_key_error_getitem|]. intros text.
  apply no_key_error_bind; [|intros _; exact Hm].
  destruct text; intros w k; discriminate.
Qed.

Lemma respond_no_key_error (get_response_text : task response_text) :
  no_key_error get_response_text ->
  no_key_error (SlackRule.respond get_response_text).
Proof.
  intros Hr. unfold SlackRule.respond.
  apply no_key_error_bind; [exact Hr|]. intros responses.
  apply no_key_error_bind; [apply no_key_error_getitem|]. intros channel.
  apply no_key_error_bind; [apply no_key_error_getitem|]. intros thread_ts.
  apply no_key_error_bind.
  - destruct thread_ts; try (apply no_key_error_bind; [apply no_key_error_getitem|];
      intros ?; apply no_key_error_ret).
    apply no_key_error_ret.
  - intros message. apply no_key_error_ret.
Qed.

(** The default reaction raises no missing-key fault unless the rule's
    own methods do. *)
Lemma react_no_key_error (channel_filter : value -> task bool) (message_filter : task bool)
    (get_response_text : task response_text) :
  (forall c, no_key_error (channel_filter c)) ->
  no_key_error message_filter ->
  no_key_error get_response_text ->
  no_key_error
    (SlackRule.react (SlackRule.should_respond_to_event channel_filter message_filter)
       (SlackRule.respond get_response_text)).
Proof.
  intros Hc Hm Hr. unfold SlackRule.react. apply no_key_error_bind.
  - apply event_filter_no_key_error; assumption.
  - intros [|]; [apply respond_no_key_error; exact Hr | apply no_key_error_ret].
Qed.

Lemma no_key_error_lift {A} (r : exn + A) :
  (forall k, r <> inl (KeyError k)) -> no_key_error (lift r).
Proof.
  intros Hr w k. destruct r as [e|a]; simpl; [|discriminate].
  intros [= ->]. apply (Hr k). reflexivity.
Qed.

(** The readable rendering fails with [TypeError] only. *)
Lemma readable_event_failure (bot : SlackBot) (ev : pydict) (e : exn) :
  get_readable_event bot ev = inl e -> e = TypeError.
Proof.
  unfold get_readable_event, table_get.
  destruct (hashable (dict_get ev "channel" (VStr ""))); [|congruence].
  destruct (hashable (dict_get ev "user" (VStr ""))); [discriminate | congruence].
Qed.

Section DispatchLookups.

Variable gateway : list request -> request -> outcome value.
Variable repr_event : option pydict -> string.
Variable str_exn : exn -> string.
Variable format_exc : exn -> string.
Variable repr_rule : rule -> string.

(** The gateway may fail, but not with a missing-key fault. *)
Hypothesis gateway_keeps_keys :
  forall history req key, gateway history req <> Raise (KeyError key).

Lemma log_and_report_no_key_error bot message l :
  no_key_error (log_and_report gateway bot message l).
Proof.
  unfold log_and_report. apply no_key_error_bind; [intros w k; discriminate|].
  intros _. destruct (report_to_user bot) as [user|]; [|apply no_key_error_ret].
  destruct (String.eqb user ""); [apply no_key_error_ret|].
  apply no_key_error_bind; [|intros _; apply no_key_error_ret].
  intros w k. unfold api_call.
  rewrite lookup_insert_ne by discriminate.
  rewrite lookup_insert_ne by discriminate.
  rewrite lookup_insert_eq. cbn [fst]. apply gateway_keeps_keys.
Qed.

Lemma report_pending_no_key_error bot ev fut os :
  no_key_error (report_pending gateway repr_event bot ev fut os).
Proof.
  revert fut. induction os as [|o os IH]; intros fut; cbn [report_pending];
    [apply no_key_error_ret|].
  destruct o; try apply IH.
  apply no_key_error_bind; [intros w k; discriminate|]. intros _.
  apply no_key_error_bind; [apply log_and_report_no_key_error | intros _; apply IH].
Qed.

Lemma report_done_no_key_error bot ev os :
  no_key_error (report_done gateway repr_event str_exn format_exc bot ev os).
Proof.
  induction os as [|o os IH]; cbn [report_done]; [apply no_key_error_ret|].
  destruct o; try exact IH.
  apply no_key_error_bind; [apply log_and_report_no_key_error | intros _; exact IH].
Qed.

(** The exceptions of the tasks of a batch stay with the tasks: what the
    handler raises is its own. *)
Lemma handle_futures_no_key_error bot (futures : list (task unit)) with_event :
  no_key_error (_handle_futures gateway repr_event str_exn format_exc bot futures with_event).
Proof.
  unfold _handle_futures. apply no_key_error_bind.
  - unfold asyncio_wait. destruct futures as [|fut rest]; [intros w k; discriminate|].
    intros w k. destruct (run_tasks (fut :: rest) w). discriminate.
  - intros results. apply no_key_error_bind.
    + destruct with_event; [|apply no_key_error_ret].
      intros w k. destruct (truthy (VDict (event w))); [|discriminate].
      destruct (get_readable_event bot (event w)) as [e|readable] eqn:E; [|discriminate].
      apply readable_event_failure in E. subst e. discriminate.
    + intros ev. apply no_key_error_bind; [apply report_pending_no_key_error|].
      intros _. apply report_done_no_key_error.
Qed.

Lemma process_event_no_key_error bot rules event_dict :
  no_key_error
    (_process_event gateway repr_event str_exn format_exc repr_rule bot rules event_dict).
Proof.
  unfold _process_event.
  apply no_key_error_bind; [intros w k; discriminate|]. intros _.
  apply no_key_error_bind; [apply no_key_error_getitem|]. intros user.
  destruct (py_eq user (me bot)); [apply no_key_error_ret|].
  apply no_key_error_bind; [apply no_key_error_getitem|]. intros ty.
  apply no_key_error_bind.
  - destruct (py_eq ty (VStr "message")); [|apply no_key_error_ret].
    apply no_key_error_bind; [apply no_key_error_getitem|]. intros channel.
    destruct (truthy channel); [|apply no_key_error_ret].
    apply no_key_error_bind; [apply no_key_error_getitem|]. intros channel'.
    apply no_key_error_lift. intros k. destruct channel'; discriminate.
  - intros direct. apply no_key_error_bind; [|intros _; apply handle_futures_no_key_error].
    destruct direct; [|apply no_key_error_ret].
    apply no_key_error_bind; [|intros readable w k; discriminate].
    intros w k. destruct (get_readable_event bot (event w)) as [e|readable] eqn:E;
      cbn [lift]; [|discriminate].
    apply readable_event_failure in E. subst e. discriminate.
Qed.

(** C9, as the code has it.  Looking a key up in the event itself is
    total: the lookup returns the stored value, and [None] for a key the
    frame did not carry.  Processing an event therefore raises no
    missing-key fault of its own, whatever the event holds and whatever
    the rules do (what a reaction raises stays with its task), as long as
    the gateway fails with none.  The default event filter, the default
    responder and the reaction built from them look nowhere but at the
    top level of the event, so they raise no missing-key fault unless
    the rule's own methods do. *)
Theorem event_lookup_is_total (bot : SlackBot) (rules : list rule)
    (event_dict : pydict) (w : world)
    (channel_filter : value -> task bool) (message_filter : task bool)
    (get_response_text : task response_text) :
  (forall c, no_key_error (channel_filter c)) ->
  no_key_error message_filter ->
  no_key_error get_response_text ->
  (forall k v, fst (event_getitem k v) = Return (default VNone (event v !! k))) /\
  (forall key,
     fst (_process_event gateway repr_event str_exn format_exc repr_rule
            bot rules event_dict w) <> Raise (KeyError key)) /\
  no_key_error
    (SlackRule.react (SlackRule.should_respond_to_event channel_filter message_filter)
       (SlackRule.respond get_response_text)).
Proof.
  intros Hc Hm Hr. split; [|split].
  - intros k v. unfold event_getitem. destruct (event v !! k); reflexivity.
  - intros key. apply process_event_no_key_error.
  - apply react_no_key_error; assumption.
Qed.

End DispatchLookups.

(** An incomplete file share reaches a snippet rule and a containment
    rule: the snippet rule's own lookup fails, and processing raises no
    missing-key fault; the containment rule raises none either. *)
Lemma event_lookup_is_total_witness :
  (forall k v, fst (event_getitem k v) = Return (default VNone (event v !! k))) /\
  (forall key,
     fst (_process_event agreeable_gateway show_event show_exn show_exn show_rule
            sample_bot
            [snippet_rule (tables := ascii_tables) "snip" ["general"] ["love me"] "" "I do";
             contains_rule (tables := ascii_tables) "love" ["general"] ["love me"] "I do"]
            share_with_empty_file (blank ∅)) <> Raise (KeyError key)) /\
  no_key_error
    (rule_react (contains_rule (tables := ascii_tables) "love" ["general"] ["love me"] "I do")
       sample_bot).
Proof.
  apply (event_lookup_is_total agreeable_gateway show_event show_exn show_exn show_rule
           ltac:(intros; discriminate) sample_bot
           [snippet_rule (tables := ascii_tables) "snip" ["general"] ["love me"] "" "I do";
            contains_rule (tables := ascii_tables) "love" ["general"] ["love me"] "I do"]
           share_with_empty_file (blank ∅)
           (SlackRule.should_respond_to_channel sample_bot (ret ["general"]))
           (MessageContainsRule.should_respond_to_message (tables := ascii_tables)
              (ret ["love me"]))
           (ret (OneText "I do"))).
  - intros c. apply channel_filter_no_key_error, no_key_error_ret.
  - apply contains_filter_no_key_error, no_key_error_ret.
  - apply no_key_error_ret.
Defined.

(** C9, as the claim has it, fails for lookups below the top level of the
    event.  The snippet rule reads [message["file"]["mode"]]: on a
    file-share message without a [file] field the total lookup yields
    [None] and the subscript of [None] raises; on one whose [file] lacks
    [mode] the plain dictionary raises the missing-key fault. *)
Lemma missing_file_fields_raise :
  fst (rule_react
         (snippet_rule (tables := ascii_tables) "snip" ["general"] ["love me"] "" "I do")
         sample_bot (blank share_without_file)) = Raise TypeError /\
  fst (rule_react
         (snippet_rule (tables := ascii_tables) "snip" ["general"] ["love me"] "" "I do")
         sample_bot (blank share_with_empty_file)) = Raise (KeyError "mode").
Proof.
  split; vm_compute; reflexivity.
Qed.

(** ** Paginated calls *)

Section Pagination.

Variable gateway : list request -> request -> outcome value.
Variable bot : SlackBot.
Variable collect_key : string.
Variable data : pydict.
Variable method : value.

Hypothesis data_method : data !! "method" = Some method.
Hypothesis data_no_cursor : data !! "cursor" = None.

Let limited : pydict := <["limit" := VInt 300]> data.
Let first := first_request bot method data.
Let next := next_request bot method data.

Lemma api_call_first (w : world) :
  api_call gateway bot limited w = (gateway (sent w) first, add_sent first w).
Proof.
  unfold api_call, limited.
  rewrite lookup_insert_ne by discriminate. rewrite data_method. reflexivity.
Qed.

Lemma api_call_next (c : value) (w : world) :
  api_call gateway bot (<["cursor" := c]> limited) w =
    (gateway (sent w) (next c), add_sent (next c) w).
Proof.
  unfold api_call, limited.
  do 2 rewrite lookup_insert_ne by discriminate. rewrite data_method. reflexivity.
Qed.

Lemma limited_no_cursor : limited !! "cursor" = None.
Proof.
  unfold limited. rewrite lookup_insert_ne by discriminate. exact data_no_cursor.
Qed.

(** The loop, entered with the cursor [c] and the items collected so far:
    it follows the cursors page by page and ends at the first cursor that
    counts as false. *)
Lemma paginate_follows (pages : list page) :
  forall (fuel : nat) (items : list value) (c : value) (w : world),
    match pages with
    | [] => truthy c = false
    | _ :: _ => truthy c = true /\ serves gateway collect_key next (sent w) (next c) pages
    end ->
    List.length pages <= fuel ->
    paginate gateway fuel bot collect_key limited (VList items) c w =
      (Return (VList (items ++ List.concat (map page_items pages))%list),
       World (event w) (sent w ++ map next (followed_cursors c pages))%list (journal w)
         (cancelled w)).
Proof.
  induction pages as [|p rest IH]; intros fuel items c w Hserve Hfuel.
  - destruct fuel; simpl; rewrite Hserve; unfold ret; simpl;
      rewrite !app_nil_r; destruct w; reflexivity.
  - destruct Hserve as [Hc (response & Hgw & [Hitems Hcur] & Hrest)].
    destruct fuel as [|fuel]; [simpl in Hfuel; lia|].
    cbn [paginate]. rewrite Hc, limited_no_cursor.
    unfold bind at 1. rewrite api_call_next, Hgw.
    unfold bind at 1. unfold ret at 1.
    unfold bind at 1. rewrite Hitems. cbn [lift]. unfold ret at 1.
    unfold bind at 1. cbn [iterate lift]. unfold ret at 1.
    unfold bind at 1. rewrite Hcur. cbn [lift]. unfold ret at 1.
    rewrite (IH fuel (items ++ page_items p)%list (page_cursor p) (add_sent (next c) w)).
    + cbn [map List.concat followed_cursors]. unfold add_sent; simpl.
      rewrite <- !app_assoc. reflexivity.
    + destruct rest; [exact Hrest|]. exact Hrest.
    + simpl in Hfuel. lia.
Qed.

(** C6, as the code has it.  A paginated call posts its first request
    with [limit=300]; as long as the [next_cursor] of the last response
    counts as true it posts the same request with that cursor added; the
    first response whose cursor is missing, [None] or the empty string
    ends the call.  The items under the collect key are concatenated in
    the order the pages came, none dropped and none reordered, and one
    request has been posted for each page. *)
Theorem pagination_concatenates_pages (p : page) (rest : list page)
    (fuel : nat) (w : world) :
  serves gateway collect_key next (sent w) first (p :: rest) ->
  List.length rest <= fuel ->
  paginated_api_call gateway fuel bot collect_key data w =
    (Return (VList (List.concat (map page_items (p :: rest)))),
     World (event w)
       (sent w ++ first :: map next (followed_cursors (page_cursor p) rest))%list
       (journal w) (cancelled w)).
Proof.
  intros (response & Hgw & [Hitems Hcur] & Hrest) Hfuel.
  unfold paginated_api_call. fold limited.
  unfold bind at 1. rewrite api_call_first, Hgw.
  unfold bind at 1. rewrite Hitems. cbn [lift]. unfold ret at 1.
  unfold bind at 1. rewrite Hcur. cbn [lift]. unfold ret at 1.
  rewrite (paginate_follows rest fuel (page_items p) (page_cursor p) (add_sent first w)).
  - unfold add_sent; simpl. rewrite <- app_assoc. reflexivity.
  - destruct rest; exact Hrest.
  - exact Hfuel.
Qed.

End Pagination.

Lemma pagination_concatenates_pages_witness :
  paginated_api_call three_page_gateway 2 sample_bot "members" users_list (blank ∅) =
    (Return (VList (List.concat (map page_items three_pages))),
     World ∅
       ([] ++ first_request sample_bot (VStr "users.list") users_list
           :: map (next_request sample_bot (VStr "users.list") users_list)
                [VStr "c1"; VStr "c2"])%list
       [] []) /\
  List.concat (map page_items three_pages) = members 0 250 /\
  List.length (members 0 250) = 250.
Proof.
  split; [|split; vm_compute; reflexivity].
  apply (pagination_concatenates_pages three_page_gateway sample_bot "members"
           users_list (VStr "users.list") eq_refl eq_refl
           (Page (members 0 100) (VStr "c1"))
           [Page (members 100 100) (VStr "c2"); Page (members 200 50) VNone]
           2 (blank ∅)).
  - simpl. eexists. split; [reflexivity|]. split; [split; reflexivity|].
    split; [reflexivity|].
    eexists. split; [reflexivity|]. split; [split; reflexivity|].
    split; [reflexivity|].
    eexists. split; [reflexivity|]. split; [split; reflexivity|].
    reflexivity.
  - simpl. lia.
Defined.

(** C6, as the claim has it, fails on a page whose metadata holds a
    cursor that is empty: the key [next_cursor] is there, and the call
    ends after its first request. *)
Lemma empty_cursor_ends_pagination :
  (exists metadata,
     subscript (listing_page [VInt 1] (Some "")) "response_metadata" = inr (VDict metadata) /\
     metadata !! "next_cursor" = Some (VStr "")) /\
  paginated_api_call empty_cursor_gateway 5 sample_bot "members" users_list (blank ∅) =
    (Return (VList [VInt 1]),
     World ∅ [first_request sample_bot (VStr "users.list") users_list] [] []).
Proof.
  split.
  - eexists. split; reflexivity.
  - vm_compute. reflexivity.
Qed.

(** ** The connection loop *)

Section ConnectionLoop.

Variable gateway : list request -> request -> outcome value.
Variable repr_event : option pydict -> string.
Variable str_exn : exn -> string.
Variable format_exc : exn -> string.
Variable repr_rule : rule -> string.

Let run_script := run gateway repr_event str_exn format_exc repr_rule.

(** Once [run] has returned or raised, the socket has nothing to say to it. *)
Lemma run_finished fuel rules script o bot w :
  run_script fuel rules script (Finished o) bot w = (bot, Finished o, w).
Proof.
  induction script as [|i rest IH]; [reflexivity|].
  unfold run_script in *. simpl. exact IH.
Qed.

(** C5 at the failing input.  In the receive loop, an idle timeout
    followed by a heartbeat that times out makes [run] raise
    [TimeoutError]: the run is over, and no later behaviour of the socket
    brings it back to handshaking.  A heartbeat that fails with a closed
    connection does go back to handshaking. *)
Theorem heartbeat_timeout_ends_the_run (fuel : nat) (rules : list rule)
    (rest : list socket_input) (bot : SlackBot) (w : world) :
  run_script fuel rules
    (Recv (inl TimeoutError) :: Ping (Some TimeoutError) :: rest) Receiving bot w =
    (bot, Finished (Raise TimeoutError), w) /\
  run_script fuel rules
    [Recv (inl TimeoutError); Ping (Some ConnectionClosed)] Receiving bot w =
    (bot, Handshaking, w).
Proof.
  split; [|reflexivity].
  unfold run_script. cbn [run run_step leave].
  apply run_finished.
Qed.

End ConnectionLoop.

(** ** The dispatcher *)

Lemma world_le_refl w : world_le w w.
Proof. repeat split; reflexivity. Qed.

Lemma world_le_trans a b c : world_le a b -> world_le b c -> world_le a c.
Proof.
  intros (S1 & J1 & C1 & U1) (S2 & J2 & C2 & U2). repeat split.
  - etransitivity; eassumption.
  - etransitivity; eassumption.
  - congruence.
  - congruence.
Qed.

Lemma well_behaved_ret {A} (a : A) : well_behaved (ret a).
Proof. intros w. apply world_le_refl. Qed.

Lemma well_behaved_raise {A} (e : exn) : well_behaved (@raise A e).
Proof. intros w. apply world_le_refl. Qed.

Lemma well_behaved_bind {A B} (m : task A) (f : A -> task B) :
  well_behaved m -> (forall a, well_behaved (f a)) -> well_behaved (bind m f).
Proof.
  intros Hm Hf w. unfold bind. specialize (Hm w).
  destruct (m w) as [[a|e|] w1]; simpl in *; try exact Hm.
  eapply world_le_trans; [exact Hm | apply Hf].
Qed.

Section Dispatcher.

Variable gateway : list request -> request -> outcome value.
Variable repr_event : option pydict -> string.
Variable str_exn : exn -> string.
Variable format_exc : exn -> string.
Variable repr_rule : rule -> string.

Lemma world_le_add_sent r w : world_le w (add_sent r w).
Proof.
  repeat split; simpl; try reflexivity. apply prefix_app_r. reflexivity.
Qed.

Lemma world_le_add_journal l msg w : world_le w (add_journal l msg w).
Proof.
  repeat split; simpl; try reflexivity. apply prefix_app_r. reflexivity.
Qed.

Lemma api_call_well_behaved bot data : well_behaved (api_call gateway bot data).
Proof.
  intros w. unfold api_call. destruct (data !! "method"); simpl.
  - apply world_le_add_sent.
  - apply world_le_refl.
Qed.

Lemma api_call_kwargs_well_behaved bot kwargs :
  well_behaved (api_call_kwargs gateway bot kwargs).
Proof.
  unfold api_call_kwargs. destruct (kwargs !! "self");
    [apply well_behaved_raise | apply api_call_well_behaved].
Qed.

Lemma log_well_behaved l msg : well_behaved (log l msg).
Proof. intros w. apply world_le_add_journal. Qed.

Lemma submit_well_behaved bot responses : well_behaved (submit gateway bot responses).
Proof.
  induction responses as [|r rest IH]; simpl.
  - apply well_behaved_ret.
  - apply well_behaved_bind; [apply api_call_kwargs_well_behaved | intros _; exact IH].
Qed.

Lemma react_to_rule_well_behaved bot r :
  well_behaved (rule_react r bot) ->
  well_behaved (_react_to_rule gateway repr_rule bot r).
Proof.
  intros Hr. unfold _react_to_rule.
  apply well_behaved_bind; [exact Hr|]. intros responses.
  apply well_behaved_bind; [|intros _; apply submit_well_behaved].
  destruct responses; [apply well_behaved_ret | apply log_well_behaved].
Qed.

(** Each task of a batch starts from a world that continues the batch's
    first world, and the batch's last world continues the one it left. *)
Lemma run_tasks_worlds (futures : list (task unit)) (w : world) :
  (forall t, t ∈ futures -> well_behaved t) ->
  world_le w (snd (run_tasks futures w)) /\
  forall t, t ∈ futures ->
    exists wi, world_le w wi /\ world_le (snd (t wi)) (snd (run_tasks futures w)).
Proof.
  revert w. induction futures as [|fut rest IH]; intros w Hwb; simpl.
  - split; [apply world_le_refl|]. intros t Ht. inversion Ht.
  - assert (Hfut : world_le w (snd (fut w))) by (apply Hwb; left).
    destruct (fut w) as [o w1] eqn:E1. simpl in Hfut.
    destruct (IH w1) as [Hle Hin]; [intros t Ht; apply Hwb; right; exact Ht|].
    destruct (run_tasks rest w1) as [os w2]. simpl in *.
    split; [eapply world_le_trans; eassumption|].
    intros t Ht. apply elem_of_cons in Ht as [->|Ht].
    + exists w. split; [apply world_le_refl|]. rewrite E1. exact Hle.
    + destruct (Hin t Ht) as (wi & H1 & H2). exists wi. split; [|exact H2].
      eapply world_le_trans; eassumption.
Qed.

(** The reactions of a batch leave the identifiers of its event alone. *)
Lemma reactions_keep_identifiers bot (rules : list rule) (w : world) :
  (forall r, r ∈ rules -> well_behaved (rule_react r bot)) ->
  world_le w (snd (run_tasks (map (_react_to_rule gateway repr_rule bot) rules) w)).
Proof.
  intros Hwb. apply run_tasks_worlds. intros t Ht.
  apply list_elem_of_fmap in Ht as (r & -> & Hr).
  apply react_to_rule_well_behaved, Hwb, Hr.
Qed.

(** An event of somebody else that is no message reaches the batch with
    nothing posted and nothing logged. *)
Lemma other_event_dispatches bot rules event_dict w :
  py_eq (event_value event_dict "user") (me bot) = false ->
  event_value event_dict "type" <> VStr "message" ->
  _process_event gateway repr_event str_exn format_exc repr_rule bot rules event_dict w =
    _handle_futures gateway repr_event str_exn format_exc bot
      (map (_react_to_rule gateway repr_rule bot) rules) true
      (World (touched "type" (touched "user" event_dict)) (sent w) (journal w)
         (cancelled w)).
Proof.
  intros Hme Hty. destruct w as [ev0 s j c]. unfold _process_event.
  step_task. rewrite Hme. step_task. rewrite event_value_touched.
  rewrite (py_eq_str_false _ _ Hty). unfold ret. step_task. reflexivity.
Qed.

(** An identifier that cannot be hashed is stored in the event, and the
    readable rendering of the event fails on it. *)
Lemma unhashable_is_stored ev k :
  hashable (event_value ev k) = false -> dict_get ev k (VStr "") = event_value ev k.
Proof.
  unfold event_value, dict_get. destruct (ev !! k); [reflexivity | discriminate].
Qed.

Lemma unreadable_event bot ev :
  hashable (event_value ev "user") = false \/
  hashable (event_value ev "channel") = false ->
  truthy (VDict ev) = true /\ get_readable_event bot ev = inl TypeError.
Proof.
  intros Hbad. split.
  - cbn [truthy]. apply negb_true_iff, bool_decide_eq_false. intros ->.
    destruct Hbad as [H|H]; discriminate H.
  - unfold get_readable_event, table_get.
    destruct (hashable (dict_get ev "channel" (VStr ""))) eqn:Ec; [|reflexivity].
    destruct (hashable (dict_get ev "user" (VStr ""))) eqn:Eu; [|reflexivity].
    destruct Hbad as [H|H]; rewrite <- (unhashable_is_stored _ _ H) in H; congruence.
Qed.

(** A batch whose event has an object, or a list, for its user or for
    its channel: the handler raises while it renders the event, after the
    tasks have run and before it looks at any of them. *)
Lemma handle_futures_unreadable bot (futures : list (task unit)) w os w1 :
  futures <> [] ->
  run_tasks futures w = (os, w1) ->
  hashable (event_value (event w1) "user") = false \/
  hashable (event_value (event w1) "channel") = false ->
  _handle_futures gateway repr_event str_exn format_exc bot futures true w =
    (Raise TypeError, w1).
Proof.
  intros Hne Hrun Hbad. unfold _handle_futures, asyncio_wait.
  destruct futures as [|fut rest]; [congruence|].
  rewrite bind_apply, Hrun. rewrite bind_apply.
  destruct (unreadable_event bot (event w1) Hbad) as [-> ->]. reflexivity.
Qed.

(** *** With a gateway that answers *)

Hypothesis gateway_answers : answers gateway.

Lemma api_call_answered bot data method w :
  data !! "method" = Some method ->
  exists body,
    api_call gateway bot data w = (Return body, add_sent (action_request bot data) w).
Proof.
  intros Hm. unfold api_call, action_request. rewrite Hm. simpl.
  destruct (gateway_answers (sent w)
              (Request method (<["token" := VStr (token bot)]> (delete "method" data))))
    as [body Hb].
  exists body. rewrite Hb. reflexivity.
Qed.

Lemma api_call_kwargs_answered bot action w :
  valid_action action ->
  exists body,
    api_call_kwargs gateway bot action w =
      (Return body, add_sent (action_request bot action) w).
Proof.
  intros [[method Hm] Hself]. unfold api_call_kwargs. rewrite Hself.
  apply (api_call_answered bot action method w Hm).
Qed.

Lemma submit_eq bot (actions : list pydict) w :
  Forall valid_action actions ->
  submit gateway bot actions w =
    (Return tt,
     World (event w) (sent w ++ map (action_request bot) actions) (journal w)
       (cancelled w)).
Proof.
  intros Hall. revert w. induction Hall as [|a rest Ha _ IH]; intros w; simpl.
  - unfold ret. rewrite app_nil_r. destruct w; reflexivity.
  - unfold bind. destruct (api_call_kwargs_answered bot a w Ha) as [body ->].
    rewrite IH. unfold add_sent; simpl. rewrite <- app_assoc. reflexivity.
Qed.







Lemma is_id_hashable ev k :
  is_id (event_value ev k) = true -> hashable (dict_get ev k (VStr "")) = true.
Proof.
  unfold event_value, dict_get. destruct (ev !! k) as [[]|]; simpl; congruence.
Qed.

Lemma readable_event_exists bot ev :
  is_id (event_value ev "channel") = true ->
  is_id (event_value ev "user") = true ->
  get_readable_event bot ev =
    inr (<["user_name" := default VNone
                            (assoc (id_to_user bot) (dict_get ev "user" (VStr "")))]>
           (<["channel_name" := default VNone
                                  (assoc (id_to_channel bot)
                                     (dict_get ev "channel" (VStr "")))]> ev)).
Proof.
  intros Hc Hu. unfold get_readable_event, table_get.
  rewrite (is_id_hashable _ _ Hc), (is_id_hashable _ _ Hu). reflexivity.
Qed.

(** An event of somebody else, with well-formed identifiers, reaches the
    batch: up to there nothing is posted, and the only log line there can
    be is the one for a direct message. *)
Lemma process_event_dispatches bot rules event_dict w :
  py_eq (event_value event_dict "user") (me bot) = false ->
  is_id (event_value event_dict "channel") = true ->
  is_id (event_value event_dict "user") = true ->
  exists w0,
    _process_event gateway repr_event str_exn format_exc repr_rule bot rules event_dict w =
      _handle_futures gateway repr_event str_exn format_exc bot
        (map (_react_to_rule gateway repr_rule bot) rules) true w0 /\
    sent w0 = sent w /\
    journal w `prefix_of` journal w0 /\
    same_lookups event_dict (event w0) /\
    cancelled w0 = cancelled w.
Proof.
  intros Hme Hc Hu. destruct w as [ev0 s j c]. unfold _process_event.
  step_task. rewrite Hme. step_task.
  assert (Hgo : forall ev1 j1,
            j `prefix_of` j1 ->
            (forall k, event_value ev1 k = event_value event_dict k) ->
            exists w0,
              _handle_futures gateway repr_event str_exn format_exc bot
                (map (_react_to_rule gateway repr_rule bot) rules) true (World ev1 s j1 c) =
              _handle_futures gateway repr_event str_exn format_exc bot
                (map (_react_to_rule gateway repr_rule bot) rules) true w0 /\
              sent w0 = s /\ j `prefix_of` journal w0 /\
              same_lookups event_dict (event w0) /\
              cancelled w0 = c).
  { intros ev1 j1 H1 H2. exists (World ev1 s j1 c). repeat split; auto. }
  destruct (py_eq (event_value (touched "user" event_dict) "type") (VStr "message")).
  - step_task. rewrite !event_value_touched.
    destruct (event_value event_dict "channel") as [| | |ch| |] eqn:Ech; try discriminate.
    + cbn [truthy]. unfold ret. step_task. apply Hgo; [reflexivity|].
      intros k. rewrite !event_value_touched. reflexivity.
    + cbn [truthy]. destruct (negb (String.eqb ch "")).
      * step_task. rewrite !event_value_touched, Ech.
        cbn [value_startswith lift]. unfold ret at 1. cbv beta iota.
        destruct (startswith ch "D").
        -- step_task.
           match goal with
           | |- context [get_readable_event bot ?ev] =>
               rewrite (readable_event_exists bot ev)
                 by (rewrite !event_value_touched; rewrite ?Ech; auto)
           end.
           cbn [lift]. unfold ret, log. step_task.
           apply Hgo; [apply prefix_app_r; reflexivity|].
           intros k. rewrite !event_value_touched. reflexivity.
        -- unfold ret. step_task. apply Hgo; [reflexivity|].
           intros k. rewrite !event_value_touched. reflexivity.
      * unfold ret. step_task. apply Hgo; [reflexivity|].
        intros k. rewrite !event_value_touched. reflexivity.
  - unfold ret. step_task. apply Hgo; [reflexivity|].
    intros k. rewrite !event_value_touched. reflexivity.
Qed.

(** A reaction that returns valid actions logs that it responds, when it
    has an action at all, and submits them one after the other behind
    whatever the reaction itself posted. *)
Lemma react_to_rule_submits bot r (actions : list pydict) w w' :
  rule_react r bot w = (Return actions, w') ->
  Forall valid_action actions ->
  _react_to_rule gateway repr_rule bot r w =
    (Return tt,
     World (event w')
       (sent w' ++ map (action_request bot) actions)
       (journal w' ++
        match actions with
        | [] => []
        | _ :: _ => [(INFO, "Rule " ++ repr_rule r ++ " is responding to an event.")]
        end)
       (cancelled w')).
Proof.
  intros Hr Hall. unfold _react_to_rule. rewrite bind_apply, Hr.
  rewrite bind_apply.
  destruct actions as [|a rest].
  - cbn. rewrite !app_nil_r. destruct w'; reflexivity.
  - unfold log. cbv beta iota. rewrite submit_eq by exact Hall. reflexivity.
Qed.

End Dispatcher.

(** The sample gateway answers. *)
Lemma agreeable_gateway_answers : answers agreeable_gateway.
Proof. intros history req. eexists. reflexivity. Qed.

(** The sample batch over a message: the greeting is posted, the pending
    reaction is cancelled, it and the failed one are each reported once,
    in the log and to the operator, and processing returns. *)
Example sample_batch_runs :
  let result :=
    _process_event agreeable_gateway show_event show_exn show_exn show_rule
      sample_bot [broken; sleeper; greeter] (sample_message (VStr "hi")) (blank ∅) in
  fst result = Return tt /\
  texts_posted "chat.postMessage" (sent (snd result)) =
    [Some (VStr "hello");
     Some (VStr (timeout_message show_event (Some readable_hi)));
     Some (VStr (error_message show_event show_exn show_exn (OtherError "boom")
                   (Some readable_hi)))] /\
  journal (snd result) =
    [(INFO, "Rule greeter is responding to an event.");
     (ERROR, timeout_message show_event (Some readable_hi));
     (ERROR, error_message show_event show_exn show_exn (OtherError "boom")
               (Some readable_hi))] /\
  cancelled (snd result) = [1].
Proof.
  vm_compute. repeat split.
Qed.

(** C2 at the failing input.  A new member joins: the event carries the
    member as an object under [user].  One rule's reaction raises and
    another's returns a greeting.  The greeting is posted; then the
    handler fails with [TypeError] while it renders the event for its
    reports, so processing raises, and the failure of the first rule is
    neither logged nor forwarded to the operator.  The same two rules
    over a message have the failure reported and processing return. *)
Theorem failure_on_team_join_is_not_reported :
  let process :=
    _process_event agreeable_gateway show_event show_exn show_exn show_rule sample_bot in
  fst (run_tasks (map (_react_to_rule agreeable_gateway show_rule sample_bot)
                    [broken; greeter]) (blank team_join)) =
    [Raise (OtherError "boom"); Return tt] /\
  get_readable_event sample_bot team_join = inl TypeError /\
  fst (process [broken; greeter] team_join (blank ∅)) = Raise TypeError /\
  sent (snd (process [broken; greeter] team_join (blank ∅))) =
    [action_request sample_bot greeting] /\
  journal (snd (process [broken; greeter] team_join (blank ∅))) =
    [(INFO, "Rule greeter is responding to an event.")] /\
  fst (process [broken; greeter] (sample_message (VStr "hi")) (blank ∅)) = Return tt /\
  journal (snd (process [broken; greeter] (sample_message (VStr "hi")) (blank ∅))) =
    [(INFO, "Rule greeter is responding to an event.");
     (ERROR, error_message show_event show_exn show_exn (OtherError "boom")
               (Some readable_hi))].
Proof.
  vm_compute. repeat split.
Qed.

(** C3 at the failing input.  On the same event, one rule's reaction is
    still pending at the deadline and another's returns a greeting.  The
    greeting is posted; then the handler fails with [TypeError] before
    its loop over the pending tasks: the pending reaction is not
    cancelled, no timeout is logged or forwarded, and processing raises.
    The same two rules over a message have the pending reaction
    cancelled and reported, and processing return. *)
Theorem pending_on_team_join_is_not_cancelled :
  let process :=
    _process_event agreeable_gateway show_event show_exn show_exn show_rule sample_bot in
  fst (run_tasks (map (_react_to_rule agreeable_gateway show_rule sample_bot)
                    [sleeper; greeter]) (blank team_join)) =
    [Suspended; Return tt] /\
  fst (process [sleeper; greeter] team_join (blank ∅)) = Raise TypeError /\
  cancelled (snd (process [sleeper; greeter] team_join (blank ∅))) = [] /\
  sent (snd (process [sleeper; greeter] team_join (blank ∅))) =
    [action_request sample_bot greeting] /\
  journal (snd (process [sleeper; greeter] team_join (blank ∅))) =
    [(INFO, "Rule greeter is responding to an event.")] /\
  fst (process [sleeper; greeter] (sample_message (VStr "hi")) (blank ∅)) = Return tt /\
  cancelled (snd (process [sleeper; greeter] (sample_message (VStr "hi")) (blank ∅))) = [0] /\
  journal (snd (process [sleeper; greeter] (sample_message (VStr "hi")) (blank ∅))) =
    [(INFO, "Rule greeter is responding to an event.");
     (ERROR, timeout_message show_event (Some readable_hi))].
Proof.
  vm_compute. repeat split.
Qed.

(** * Further properties of the runtime and of the rule contract *)

(** ** Calls to the gateway *)

Section Gateway.

Variable gateway : list request -> request -> outcome value.

(** A call without a [method] raises [KeyError] before anything is
    posted. *)
Lemma api_call_without_method (bot : SlackBot) (data : pydict) (w : world) :
  data !! "method" = None ->
  api_call gateway bot data w = (Raise (KeyError "method"), w).
Proof.
  intros Hm. unfold api_call. rewrite Hm. reflexivity.
Qed.

(** X1.  A call to [api_call] with the keywords of a dictionary, as the
    dispatcher makes it for each action.  A keyword [self] makes the call
    raise [TypeError], and a dictionary without [method] makes it raise
    [KeyError]; either way nothing is posted.  Otherwise the call posts
    exactly one request, whatever the gateway does with it: the method is
    taken out of the form, the bot's token is in the form even when the
    caller passed a [token] of its own, and every other parameter is
    posted as the caller gave it; the outcome of the call is the
    gateway's. *)
Theorem api_call_posts_one_request (bot : SlackBot) (data : pydict) (w : world) :
  match data !! "self", data !! "method" with
  | Some _, _ => api_call_kwargs gateway bot data w = (Raise TypeError, w)
  | None, None => api_call_kwargs gateway bot data w = (Raise (KeyError "method"), w)
  | None, Some method =>
      exists req,
        api_call_kwargs gateway bot data w =
          (gateway (sent w) req,
           World (event w) (sent w ++ [req]) (journal w) (cancelled w)) /\
        req_method req = method /\
        req_data req !! "method" = None /\
        req_data req !! "token" = Some (VStr (token bot)) /\
        (forall k, k <> "method" -> k <> "token" -> req_data req !! k = data !! k)
  end.
Proof.
  unfold api_call_kwargs, api_call.
  destruct (data !! "self") as [v|]; [reflexivity|].
  destruct (data !! "method") as [method|]; [|reflexivity].
  eexists. split; [reflexivity|].
  cbn [req_method req_data]. repeat split.
  - rewrite lookup_insert_ne by discriminate. apply lookup_delete_eq.
  - apply lookup_insert_eq.
  - intros k Hk1 Hk2. rewrite lookup_insert_ne by congruence.
    apply lookup_delete_ne. congruence.
Qed.

Lemma submit_app bot (l1 l2 : list pydict) (w : world) :
  submit gateway bot (l1 ++ l2) w =
    bind (submit gateway bot l1) (fun _ => submit gateway bot l2) w.
Proof.
  revert w. induction l1 as [|a l1 IH]; intros w; [reflexivity|].
  cbn [app submit]. rewrite !bind_apply.
  destruct (api_call_kwargs gateway bot a w) as [[body|e|] w1]; try reflexivity.
  rewrite IH, bind_apply. reflexivity.
Qed.

(** X2.  With a gateway that answers every request, the actions of a rule
    are submitted one after the other, and the first one that cannot be
    passed to [api_call] ends the submission: the actions before it have
    been posted, the task raises ([TypeError] for an action with a
    keyword [self], [KeyError] for one without [method]), and the actions
    after it are never posted. *)
Theorem submit_stops_at_invalid_action (bot : SlackBot)
    (valid : list pydict) (bad : pydict) (rest : list pydict) (w : world) :
  answers gateway ->
  Forall valid_action valid ->
  ~ valid_action bad ->
  submit gateway bot (valid ++ bad :: rest) w =
    (Raise (match bad !! "self" with
            | Some _ => TypeError
            | None => KeyError "method"
            end),
     World (event w) (sent w ++ map (action_request bot) valid) (journal w)
       (cancelled w)).
Proof.
  intros Hgw Hvalid Hbad.
  rewrite submit_app, bind_apply, (submit_eq gateway Hgw bot valid w Hvalid).
  cbn [submit]. rewrite bind_apply. unfold api_call_kwargs.
  destruct (bad !! "self") as [v|] eqn:Eself; [reflexivity|].
  rewrite api_call_without_method; [reflexivity|].
  destruct (bad !! "method") as [m|] eqn:Em; [|reflexivity].
  exfalso. apply Hbad. split; [rewrite Em; eauto | exact Eself].
Qed.

(** X3.  A report is logged whatever becomes of its delivery.  The log
    line is written first; the message is posted to the operator exactly
    when an operator is configured and its name is not empty; and when
    nothing is to be posted the report returns normally whatever the
    gateway is. *)
Theorem report_is_logged_first (bot : SlackBot) (message : string) (l : level)
    (w : world) :
  snd (log_and_report gateway bot message l w) =
    World (event w) (sent w ++ report_requests bot message)
      (journal w ++ [(l, message)]) (cancelled w) /\
  (report_requests bot message = [] ->
   fst (log_and_report gateway bot message l w) = Return tt) /\
  (report_requests bot message = [] <->
   report_to_user bot = None \/ report_to_user bot = Some "").
Proof.
  unfold log_and_report, report_requests. rewrite bind_apply. unfold log.
  cbv beta iota. destruct (report_to_user bot) as [user|].
  - destruct (String.eqb_spec user "") as [->|Hne].
    + cbn. rewrite app_nil_r. repeat split; auto.
    + rewrite bind_apply. unfold api_call at 1 2.
      rewrite lookup_insert_ne by discriminate.
      rewrite lookup_insert_ne by discriminate.
      rewrite lookup_insert_eq. unfold action_request.
      rewrite lookup_insert_ne by discriminate.
      rewrite lookup_insert_ne by discriminate.
      rewrite lookup_insert_eq. cbn [default].
      match goal with
      | |- context [gateway ?h ?r] => destruct (gateway h r) as [body|e|]
      end; cbn; (split; [reflexivity|]); (split; [discriminate|]);
        (split; [discriminate|]); intros [H|H]; congruence.
  - cbn. rewrite app_nil_r. repeat split; auto.
Qed.

End Gateway.

(** ** Readable events and the way to the batch *)

(** X4.  The readable rendering of an event is a copy of the event with
    two more bindings, the channel's name and the user's name as the
    directory has them ([None] for an identifier it does not hold, and for
    a missing field); every other binding is the event's own.  It fails,
    with [TypeError], exactly when the channel or the user of the event
    is a list or an object. *)
Theorem readable_event_adds_names (bot : SlackBot) (ev : pydict) :
  match get_readable_event bot ev with
  | inr readable =>
      hashable (dict_get ev "channel" (VStr "")) = true /\
      hashable (dict_get ev "user" (VStr "")) = true /\
      readable !! "channel_name" =
        Some (default VNone (assoc (id_to_channel bot) (dict_get ev "channel" (VStr "")))) /\
      readable !! "user_name" =
        Some (default VNone (assoc (id_to_user bot) (dict_get ev "user" (VStr "")))) /\
      (forall k, k <> "channel_name" -> k <> "user_name" -> readable !! k = ev !! k)
  | inl e =>
      e = TypeError /\
      (hashable (dict_get ev "channel" (VStr "")) = false \/
       hashable (dict_get ev "user" (VStr "")) = false)
  end.
Proof.
  unfold get_readable_event, table_get.
  destruct (hashable (dict_get ev "channel" (VStr ""))); [|split; auto].
  destruct (hashable (dict_get ev "user" (VStr ""))); [|split; auto].
  repeat split.
  - rewrite lookup_insert_ne by discriminate. apply lookup_insert_eq.
  - apply lookup_insert_eq.
  - intros k H1 H2. rewrite !lookup_insert_ne by congruence. reflexivity.
Qed.

Section BeforeTheBatch.

Variable gateway : list request -> request -> outcome value.
Variable repr_event : option pydict -> string.
Variable str_exn : exn -> string.
Variable format_exc : exn -> string.
Variable repr_rule : rule -> string.

Let process := _process_event gateway repr_event str_exn format_exc repr_rule.

(** X5.  A bot without rules cannot process an event of somebody else:
    [asyncio.wait] refuses the empty batch, so processing raises
    [ValueError], and nothing has been posted. *)
Theorem batch_without_rules_raises (bot : SlackBot) (event_dict : pydict) (w : world) :
  py_eq (event_value event_dict "user") (me bot) = false ->
  is_id (event_value event_dict "channel") = true ->
  is_id (event_value event_dict "user") = true ->
  fst (process bot [] event_dict w) = Raise ValueError /\
  sent (snd (process bot [] event_dict w)) = sent w.
Proof.
  intros Hme Hc Hu. unfold process.
  destruct (process_event_dispatches gateway repr_event str_exn format_exc repr_rule
              bot [] event_dict w Hme Hc Hu) as (w0 & -> & Hs & _).
  cbn. split; [reflexivity | exact Hs].
Qed.

(** X6.  A message whose channel is not a string and counts as true (a
    number, a list, an object) stops processing before the batch: the
    test for a direct message raises [AttributeError], no rule is
    reached, and nothing is posted or logged. *)
Theorem malformed_channel_stops_processing (bot : SlackBot) (rules : list rule)
    (event_dict : pydict) (w : world) :
  py_eq (event_value event_dict "user") (me bot) = false ->
  event_value event_dict "type" = VStr "message" ->
  truthy (event_value event_dict "channel") = true ->
  (forall s, event_value event_dict "channel" <> VStr s) ->
  fst (process bot rules event_dict w) = Raise AttributeError /\
  sent (snd (process bot rules event_dict w)) = sent w /\
  journal (snd (process bot rules event_dict w)) = journal w.
Proof.
  intros Hme Hty Htruthy Hstr. destruct w as [ev0 s j cs].
  unfold process, _process_event.
  step_task. rewrite Hme. step_task. rewrite !event_value_touched, Hty.
  cbn [py_eq]. rewrite String.eqb_refl.
  step_task. rewrite !event_value_touched, Htruthy.
  step_task. rewrite !event_value_touched.
  destruct (event_value event_dict "channel") as [| | |c| |] eqn:Ech;
    try (cbn; repeat split; reflexivity).
  exfalso. apply (Hstr c). reflexivity.
Qed.

(** X7.  A message of somebody else in a channel whose id is a string is
    logged as a direct message exactly when the id starts with [D]; the
    line holds the readable event and is written before the batch runs,
    so it is there whatever the rules do; nothing has been posted by
    then. *)
Theorem direct_message_is_logged (bot : SlackBot) (rules : list rule)
    (event_dict : pydict) (w : world) (channel : string) :
  py_eq (event_value event_dict "user") (me bot) = false ->
  event_value event_dict "type" = VStr "message" ->
  event_value event_dict "channel" = VStr channel ->
  hashable (event_value event_dict "user") = true ->
  exists ev readable,
    same_lookups event_dict ev /\
    get_readable_event bot ev = inr readable /\
    process bot rules event_dict w =
      _handle_futures gateway repr_event str_exn format_exc bot
        (map (_react_to_rule gateway repr_rule bot) rules) true
        (World ev (sent w)
           (journal w ++
            if startswith channel "D"
            then [(INFO, "Direct message: " ++ repr_event (Some readable))]
            else [])
           (cancelled w)).
Proof.
  intros Hme Hty Hch Hu. destruct w as [ev0 s j cs].
  assert (Hread : forall ev, same_lookups event_dict ev ->
            exists readable, get_readable_event bot ev = inr readable).
  { intros ev Hsame. unfold get_readable_event, table_get.
    assert (H1 : hashable (dict_get ev "channel" (VStr "")) = true).
    { pose proof (Hsame "channel") as E. rewrite Hch in E.
      unfold event_value, dict_get in *. destruct (ev !! "channel"); [|reflexivity].
      subst. reflexivity. }
    assert (H2 : hashable (dict_get ev "user" (VStr "")) = true).
    { pose proof (Hsame "user") as E.
      unfold event_value, dict_get in *. destruct (ev !! "user"); [|reflexivity].
      rewrite E. exact Hu. }
    rewrite H1, H2. eauto. }
  unfold process, _process_event.
  step_task. rewrite Hme. step_task. rewrite !event_value_touched, Hty.
  cbn [py_eq]. rewrite String.eqb_refl.
  step_task. rewrite !event_value_touched, Hch. cbn [truthy].
  destruct (String.eqb_spec channel "") as [->|Hne]; cbn [negb].
  - unfold ret. step_task. cbn [startswith].
    destruct (Hread (touched "channel" (touched "type" (touched "user" event_dict))))
      as [readable Hr].
    { intros k. rewrite !event_value_touched. reflexivity. }
    eexists _, readable. split; [|split; [exact Hr|]].
    + intros k. rewrite !event_value_touched. reflexivity.
    + rewrite app_nil_r. reflexivity.
  - step_task. rewrite !event_value_touched, Hch. cbn [value_startswith lift].
    unfold ret at 1. cbv beta iota.
    destruct (Hread (touched "channel" (touched "channel" (touched "type"
                (touched "user" event_dict))))) as [readable Hr].
    { intros k. rewrite !event_value_touched. reflexivity. }
    eexists _, readable. split; [|split; [exact Hr|]].
    + intros k. rewrite !event_value_touched. reflexivity.
    + destruct (startswith channel "D").
      * step_task. rewrite Hr. cbn [lift]. unfold ret, log. step_task. reflexivity.
      * unfold ret. step_task. rewrite app_nil_r. reflexivity.
Qed.

End BeforeTheBatch.

(** ** The default responder and the default filters *)

Lemma touched_idem k ev : touched k (touched k ev) = touched k ev.
Proof.
  unfold touched at 1. destruct (touched k ev !! k) eqn:E; [reflexivity|].
  exfalso. unfold touched in E. destruct (ev !! k) eqn:E2.
  - congruence.
  - rewrite lookup_insert_eq in E. discriminate.
Qed.

Lemma touched_present k ev v : ev !! k = Some v -> touched k ev = ev.
Proof. intros H. unfold touched. rewrite H. reflexivity. Qed.

Lemma touched_lookup_ne k k' ev : k <> k' -> touched k ev !! k' = ev !! k'.
Proof.
  intros Hne. unfold touched. destruct (ev !! k); [reflexivity|].
  apply lookup_insert_ne. exact Hne.
Qed.

(** The default responder in closed form. *)
Lemma respond_eq (get_response_text : task response_text) (r : response_text)
    (w w1 : world) :
  get_response_text w = (Return r, w1) ->
  SlackRule.respond get_response_text w =
    (Return (map (reply (event_value (event w1) "channel")
                    (event_value (event w1) "thread_ts")) (texts_of r)),
     set_event (fun ev => touched "thread_ts" (touched "channel" ev)) w1).
Proof.
  intros Hr. unfold SlackRule.respond. rewrite bind_apply, Hr.
  destruct w1 as [ev s j c]. step_task. step_task.
  rewrite event_value_touched.
  assert (Hshape : forall (t : response_text),
            match t with OneText s0 => [s0] | Texts l => l end = texts_of t)
    by (intros []; reflexivity).
  rewrite Hshape. unfold reply.
  destruct (event_value ev "thread_ts") eqn:Ets;
    step_task; rewrite ?touched_idem, ?event_value_touched, ?Ets;
    unfold ret; cbv beta iota; reflexivity.
Qed.

(** X8.  The default responder turns each text of the response, in order,
    into one [chat.postMessage] action that is addressed to the channel
    of the event and sent as the bot; the action carries the event's
    [thread_ts] exactly when the event has one.  One string gives one
    action, and an empty sequence gives none. *)
Theorem respond_builds_one_action_per_text
    (get_response_text : task response_text) (r : response_text) (w w1 : world) :
  get_response_text w = (Return r, w1) ->
  exists actions w2,
    SlackRule.respond get_response_text w = (Return actions, w2) /\
    map (fun action => action !! "text") actions =
      map (fun text => Some (VStr text)) (texts_of r) /\
    Forall (fun action =>
              action !! "method" = Some (VStr "chat.postMessage") /\
              action !! "channel" = Some (event_value (event w1) "channel") /\
              action !! "as_user" = Some (VBool true) /\
              action !! "thread_ts" =
                match event_value (event w1) "thread_ts" with
                | VNone => None
                | ts => Some ts
                end) actions /\
    same_lookups (event w1) (event w2) /\
    sent w2 = sent w1 /\ journal w2 = journal w1.
Proof.
  intros Hr. rewrite (respond_eq _ _ _ _ Hr). eexists _, _. split; [reflexivity|].
  split; [|split; [|split; [|split]]].
  - rewrite map_map. apply map_ext. intros text. unfold reply. apply lookup_insert_eq.
  - apply Forall_forall. intros action Hin. apply list_elem_of_fmap in Hin as (text & -> & _).
    unfold reply.
    destruct (event_value (event w1) "thread_ts") eqn:Ets;
      repeat split;
      repeat (first [ rewrite lookup_insert_eq; reflexivity
                    | rewrite lookup_insert_ne by discriminate ]);
      try reflexivity; try apply lookup_empty.
  - destruct w1; simpl. intros k. rewrite !event_value_touched. reflexivity.
  - destruct w1; reflexivity.
  - destruct w1; reflexivity.
Qed.

(** X9.  When the channel filter refuses a message, the default event
    filter answers [False] at once: the message filter is not consulted,
    and the text of the event is not normalised; the event is left as the
    channel filter left it. *)
Theorem refused_channel_ends_the_filter
    (channel_filter : value -> task bool) (message_filter : task bool) (w w2 : world) :
  event_value (event w) "type" = VStr "message" ->
  channel_filter (event_value (event w) "channel")
    (set_event (touched "channel") (set_event (touched "type") w)) = (Return false, w2) ->
  SlackRule.should_respond_to_event channel_filter message_filter w = (Return false, w2).
Proof.
  intros Hty Hch. unfold SlackRule.should_respond_to_event.
  rewrite bind_apply, event_getitem_eq. cbv beta iota. rewrite Hty.
  cbn [py_eq]. rewrite String.eqb_refl. cbn [negb].
  rewrite bind_apply, event_getitem_eq. cbv beta iota.
  replace (event_value (event (set_event (touched "type") w)) "channel")
    with (event_value (event w) "channel")
    by (destruct w; simpl; symmetry; apply event_value_touched).
  rewrite bind_apply, Hch. reflexivity.
Qed.

(** ** The containment filters *)

Lemma str_contains_in_empty q : str_contains q "" = String.eqb q "".
Proof. destruct q; reflexivity. Qed.

Lemma existsb_pointwise {A} (f g : A -> bool) (l : list A) :
  (forall x, f x = g x) -> existsb f l = existsb g l.
Proof.
  intros H. induction l as [|x l IH]; simpl; [reflexivity|]. rewrite H, IH. reflexivity.
Qed.

Lemma str_contains_empty_query s : str_contains "" s = true.
Proof. destruct s; reflexivity. Qed.

(** X10.  A message without text (the field is missing or [None]) that
    the channel filter accepts reaches the containment filter with the
    empty string as its text: the filter does not raise, and it answers
    [True] only for a rule that lists the empty string among its
    queries. *)
Theorem textless_message_is_matched_as_empty {tables : CaseTables}
    (channel_filter : value -> task bool) (queries : list string) (w w2 : world) :
  event_value (event w) "type" = VStr "message" ->
  channel_filter (event_value (event w) "channel")
    (set_event (touched "channel") (set_event (touched "type") w)) = (Return true, w2) ->
  event_value (event w2) "text" = VNone ->
  SlackRule.should_respond_to_event channel_filter
    (MessageContainsRule.should_respond_to_message (ret queries)) w =
    (Return (existsb (fun q => String.eqb q "") queries),
     set_event (fun ev => <["text" := VStr ""]> (touched "text" ev)) w2).
Proof.
  intros Hty Hch Htext. unfold SlackRule.should_respond_to_event.
  rewrite bind_apply, event_getitem_eq. cbv beta iota. rewrite Hty.
  cbn [py_eq]. rewrite String.eqb_refl. cbn [negb].
  rewrite bind_apply, event_getitem_eq. cbv beta iota.
  replace (event_value (event (set_event (touched "type") w)) "channel")
    with (event_value (event w) "channel")
    by (destruct w; simpl; symmetry; apply event_value_touched).
  rewrite bind_apply, Hch. cbn [negb].
  rewrite bind_apply, event_getitem_eq. cbv beta iota. rewrite Htext.
  rewrite bind_apply. unfold event_setitem at 1. cbv beta iota.
  unfold MessageContainsRule.should_respond_to_message. rewrite bind_apply.
  unfold ret at 1. cbv beta iota.
  rewrite (any_query_in_text_eq queries _ "").
  - rewrite lower_ascii_text by reflexivity.
    destruct w2; unfold set_event; simpl. do 2 f_equal.
    apply existsb_pointwise. intros q. apply str_contains_in_empty.
  - destruct w2; simpl. apply lookup_insert_eq.
Qed.

(** X11.  Called on an event whose text is not a string, the containment
    filter raises [AttributeError] as soon as it has one query to try;
    with no query at all it answers [False] without looking at the
    text. *)
Theorem contains_filter_needs_a_string {tables : CaseTables} (queries : list string)
    (w : world) :
  (forall s, event_value (event w) "text" <> VStr s) ->
  MessageContainsRule.should_respond_to_message (ret queries) w =
    match queries with
    | [] => (Return false, w)
    | _ :: _ => (Raise AttributeError, set_event (touched "text") w)
    end.
Proof.
  intros Hns. unfold MessageContainsRule.should_respond_to_message.
  rewrite bind_apply. unfold ret at 1. cbv beta iota.
  destruct queries as [|q rest]; [reflexivity|].
  cbn [MessageContainsRule.any_query_in_text].
  rewrite bind_apply, event_getitem_eq. cbv beta iota.
  destruct (event_value (event w) "text") as [| | |s| |] eqn:E; try reflexivity.
  exfalso. apply (Hns s). reflexivity.
Qed.

(** X12.  The empty string is contained in every text: a rule that lists
    it among its queries answers [True] for every message that has a
    text. *)
Theorem empty_query_matches_every_text {tables : CaseTables} (queries : list string)
    (text : string) (w : world) :
  event w !! "text" = Some (VStr text) ->
  "" ∈ queries ->
  MessageContainsRule.should_respond_to_message (ret queries) w = (Return true, w).
Proof.
  intros Htext Hin. unfold MessageContainsRule.should_respond_to_message.
  rewrite bind_apply. unfold ret at 1. cbv beta iota.
  rewrite (any_query_in_text_eq queries w text Htext). do 2 f_equal.
  apply existsb_elem_of. exists "". split; [exact Hin | apply str_contains_empty_query].
Qed.

Section Snippets.

Context {tables : CaseTables}.
Variable http_get_text : value -> task string.

Let snippet_filter (queries : list string) : task bool :=
  SnippetOrMessageContainsRule.should_respond_to_message (ret queries) http_get_text.

(** X13.  The snippet rule downloads nothing unless it has to.  A text
    that matches is answered [True] at once; a text that does not match
    is answered [False] without a download when the message is no file
    share, and when the shared file is not in snippet mode. *)
Theorem snippet_rule_downloads_only_snippets (queries : list string) (text : string)
    (w : world) :
  event w !! "text" = Some (VStr text) ->
  (existsb (fun q => str_contains q (lower text)) queries = true ->
   snippet_filter queries w = (Return true, w)) /\
  (existsb (fun q => str_contains q (lower text)) queries = false ->
   event_value (event w) "subtype" <> VStr "file_share" ->
   snippet_filter queries w = (Return false, set_event (touched "subtype") w)) /\
  (existsb (fun q => str_contains q (lower text)) queries = false ->
   forall (file : pydict) (mode : value),
     event w !! "subtype" = Some (VStr "file_share") ->
     event w !! "file" = Some (VDict file) ->
     file !! "mode" = Some mode ->
     mode <> VStr "snippet" ->
     snippet_filter queries w = (Return false, w)).
Proof.
  intros Htext.
  assert (Hfirst : MessageContainsRule.should_respond_to_message (ret queries) w =
            (Return (existsb (fun q => str_contains q (lower text)) queries), w)).
  { unfold MessageContainsRule.should_respond_to_message.
    rewrite bind_apply. unfold ret at 1. cbv beta iota.
    apply any_query_in_text_eq. exact Htext. }
  unfold snippet_filter, SnippetOrMessageContainsRule.should_respond_to_message.
  split; [|split].
  - intros Hhit. rewrite bind_apply, Hfirst, Hhit. reflexivity.
  - intros Hmiss Hsub. rewrite bind_apply, Hfirst, Hmiss.
    rewrite bind_apply, event_getitem_eq. cbv beta iota.
    rewrite (py_eq_str_false _ _ Hsub). cbn [negb].
    rewrite bind_apply. unfold ret at 1. reflexivity.
  - intros Hmiss file mode Hsub Hfile Hmode Hns.
    assert (Hget : forall k v, event w !! k = Some v -> event_getitem k w = (Return v, w)).
    { intros k v Hk. unfold event_getitem. rewrite Hk. reflexivity. }
    rewrite bind_apply, Hfirst, Hmiss.
    rewrite bind_apply, (Hget _ _ Hsub).
    cbn [py_eq]. rewrite String.eqb_refl. cbn [negb].
    rewrite !bind_apply, (Hget _ _ Hfile).
    unfold subscript. rewrite Hmode. cbn [lift].
    rewrite !bind_apply. unfold ret. cbv beta iota.
    rewrite (py_eq_str_false _ _ Hns). reflexivity.
Qed.

(** X14.  For a file share in snippet mode whose text does not match, the
    snippet rule downloads the file from its private URL and answers by
    the lower-cased contents: [True] exactly when one of the queries
    occurs in them.  A download that fails, or that does not complete,
    is the filter's own outcome. *)
Theorem snippet_rule_matches_the_contents (queries : list string) (text : string)
    (file : pydict) (url : value) (o : outcome string) (w w' : world) :
  event w !! "text" = Some (VStr text) ->
  existsb (fun q => str_contains q (lower text)) queries = false ->
  event w !! "subtype" = Some (VStr "file_share") ->
  event w !! "file" = Some (VDict file) ->
  file !! "mode" = Some (VStr "snippet") ->
  file !! "url_private" = Some url ->
  http_get_text url w = (o, w') ->
  snippet_filter queries w =
    (match o with
     | Return contents =>
         Return (existsb (fun q => str_contains q (lower contents)) queries)
     | Raise e => Raise e
     | Suspended => Suspended
     end, w').
Proof.
  intros Htext Hmiss Hsub Hfile Hmode Hurl Hget.
  assert (Hfirst : MessageContainsRule.should_respond_to_message (ret queries) w =
            (Return false, w)).
  { unfold MessageContainsRule.should_respond_to_message.
    rewrite bind_apply. unfold ret at 1. cbv beta iota.
    rewrite (any_query_in_text_eq queries w text Htext), Hmiss. reflexivity. }
  assert (Hitem : forall k v, event w !! k = Some v -> event_getitem k w = (Return v, w)).
  { intros k v Hk. unfold event_getitem. rewrite Hk. reflexivity. }
  unfold snippet_filter, SnippetOrMessageContainsRule.should_respond_to_message.
  rewrite bind_apply, Hfirst.
  rewrite bind_apply, (Hitem _ _ Hsub).
  cbn [py_eq]. rewrite String.eqb_refl. cbn [negb].
  rewrite !bind_apply, (Hitem _ _ Hfile).
  unfold subscript at 1. rewrite Hmode. cbn [lift py_eq].
  rewrite !bind_apply. unfold ret at 1 2. cbv beta iota.
  cbn [py_eq]. rewrite String.eqb_refl. cbn [negb].
  rewrite !bind_apply, (Hitem _ _ Hfile).
  unfold subscript. rewrite Hurl. cbn [lift]. unfold ret at 1.
  rewrite !bind_apply. cbv beta iota. rewrite Hget.
  destruct o as [contents|e|]; reflexivity.
Qed.

End Snippets.

(** ** Rules end to end *)

Lemma event_getitem_present k v w :
  event w !! k = Some v -> event_getitem k w = (Return v, w).
Proof. intros H. unfold event_getitem. rewrite H. reflexivity. Qed.

(** The default channel filter with a fixed list of one channel name. *)
Lemma single_channel_filter bot (name : string) (channel_id : value) (w : world) :
  hashable channel_id = true ->
  SlackRule.should_respond_to_channel bot (ret [name]) channel_id w =
    (Return (resolves_to bot channel_id name), w).
Proof.
  intros Hh. unfold SlackRule.should_respond_to_channel, table_get, resolves_to.
  rewrite Hh. cbn [lift]. rewrite bind_apply. unfold ret at 1. cbv beta iota.
  destruct (assoc (id_to_channel bot) channel_id) as [found|]; cbn [default];
    [|reflexivity].
  destruct found; try reflexivity;
    unfold bind, ret; cbn [existsb]; rewrite orb_false_r; reflexivity.
Qed.

(** X15.  [AreYouListening] of the examples, end to end.  To a message
    with a text, in a channel whose id is a string, the rule replies
    exactly when the directory resolves the channel to [random] and the
    lower-cased text contains one of its two phrases; the reply is the
    one fixed sentence, posted to that channel and in the message's
    thread when it has one.  Otherwise the rule returns no action and
    leaves the event as it is. *)
Theorem are_you_listening_replies {tables : CaseTables} (bot : SlackBot)
    (channel text : string) (w : world) :
  event w !! "type" = Some (VStr "message") ->
  event w !! "channel" = Some (VStr channel) ->
  event w !! "text" = Some (VStr text) ->
  rule_react AreYouListening bot w =
    if resolves_to bot (VStr channel) "random" &&
       (str_contains "are you there" (lower text) ||
        str_contains "are you listening" (lower text))
    then (Return [reply (VStr channel) (event_value (event w) "thread_ts")
                    "Yes. You can't see me, but I'm right behind you."],
          set_event (touched "thread_ts") w)
    else (Return [], w).
Proof.
  intros Hty Hch Htext.
  unfold AreYouListening, contains_rule. cbn [rule_react].
  unfold SlackRule.react, SlackRule.should_respond_to_event.
  rewrite !bind_apply, (event_getitem_present _ _ _ Hty).
  cbn [py_eq]. rewrite String.eqb_refl. cbn [negb].
  rewrite !bind_apply, (event_getitem_present _ _ _ Hch).
  rewrite ?bind_apply. rewrite single_channel_filter by reflexivity.
  destruct (resolves_to bot (VStr channel) "random"); cbn [negb andb];
    [|reflexivity].
  rewrite !bind_apply, (event_getitem_present _ _ _ Htext).
  unfold ret at 1. cbv beta iota.
  unfold MessageContainsRule.should_respond_to_message.
  rewrite ?bind_apply. unfold ret at 1. cbv beta iota.
  rewrite (any_query_in_text_eq _ w text Htext). cbn [existsb].
  rewrite orb_false_r.
  destruct (str_contains "are you there" (lower text) ||
            str_contains "are you listening" (lower text)); [|reflexivity].
  rewrite (respond_eq (ret (OneText "Yes. You can't see me, but I'm right behind you."))
             (OneText "Yes. You can't see me, but I'm right behind you.") w w eq_refl).
  cbn [texts_of map]. unfold event_value at 1, dict_get. rewrite Hch.
  destruct w as [ev s j c]. unfold set_event. cbn [event sent journal cancelled] in *.
  rewrite (touched_present "channel" ev _ Hch). reflexivity.
Qed.

(** X16.  A rule class that overrides nothing fails only where the
    abstract methods are reached.  For a message in a channel whose id
    the directory does not hold (or holds with no name) its reaction is
    the empty list; for a message in a channel the directory names, the
    reaction raises [NotImplementedError]. *)
Theorem bare_rule_fails_in_known_channels (bot : SlackBot) (channel_id : value)
    (w : world) :
  event w !! "type" = Some (VStr "message") ->
  event w !! "channel" = Some channel_id ->
  hashable channel_id = true ->
  rule_react bare_rule bot w =
    match assoc (id_to_channel bot) channel_id with
    | None | Some VNone => (Return [], w)
    | Some _ => (Raise NotImplementedError, w)
    end.
Proof.
  intros Hty Hch Hh.
  unfold bare_rule. cbn [rule_react].
  unfold SlackRule.react, SlackRule.should_respond_to_event.
  rewrite !bind_apply, (event_getitem_present _ _ _ Hty).
  cbn [py_eq]. rewrite String.eqb_refl. cbn [negb].
  rewrite !bind_apply, (event_getitem_present _ _ _ Hch).
  unfold SlackRule.should_respond_to_channel, table_get. rewrite Hh. cbn [lift].
  rewrite ?bind_apply. unfold ret at 1. cbv beta iota.
  destruct (assoc (id_to_channel bot) channel_id) as [[]|]; reflexivity.
Qed.

(** ** Listings and the directory *)

Section Listings.

Variable gateway : list request -> request -> outcome value.

(** X17.  A response that lacks the collect key, as an error response of
    the gateway does, makes the paginated call raise [KeyError] for that
    key after its first request; no further page is asked for. *)
Theorem listing_without_collect_key_raises (bot : SlackBot) (collect_key : string)
    (data : pydict) (method : value) (body : pydict) (fuel : nat) (w : world) :
  data !! "method" = Some method ->
  gateway (sent w) (first_request bot method data) = Return (VDict body) ->
  body !! collect_key = None ->
  paginated_api_call gateway fuel bot collect_key data w =
    (Raise (KeyError collect_key),
     World (event w) (sent w ++ [first_request bot method data]) (journal w)
       (cancelled w)).
Proof.
  intros Hm Hgw Hkey. unfold paginated_api_call.
  rewrite bind_apply. unfold api_call.
  rewrite lookup_insert_ne by discriminate. rewrite Hm.
  fold (first_request bot method data). rewrite Hgw. cbv beta iota.
  rewrite bind_apply. unfold subscript. rewrite Hkey. reflexivity.
Qed.

(** X18.  A page that fails fails the listing: when the first page came
    with a cursor and the gateway fails on the request that follows it,
    the paginated call raises that failure, and the items of the first
    page are not returned. *)
Theorem failed_page_fails_the_listing (bot : SlackBot) (collect_key : string)
    (data : pydict) (method : value) (p : page) (response : value) (e : exn)
    (fuel : nat) (w : world) :
  data !! "method" = Some method ->
  data !! "cursor" = None ->
  gateway (sent w) (first_request bot method data) = Return response ->
  is_page collect_key p response ->
  truthy (page_cursor p) = true ->
  gateway (sent w ++ [first_request bot method data])
    (next_request bot method data (page_cursor p)) = Raise e ->
  paginated_api_call gateway (S fuel) bot collect_key data w =
    (Raise e,
     World (event w)
       (sent w ++ [first_request bot method data;
                   next_request bot method data (page_cursor p)])
       (journal w) (cancelled w)).
Proof.
  intros Hm Hnc Hgw [Hitems Hcur] Htruthy Hfail. unfold paginated_api_call.
  rewrite bind_apply. unfold api_call at 1.
  rewrite lookup_insert_ne by discriminate. rewrite Hm.
  fold (first_request bot method data). rewrite Hgw. cbv beta iota.
  rewrite bind_apply, Hitems. cbn [lift]. unfold ret at 1. cbv beta iota.
  rewrite bind_apply, Hcur. cbn [lift]. unfold ret at 1. cbv beta iota.
  cbn [paginate]. rewrite Htruthy.
  rewrite lookup_insert_ne by discriminate. rewrite Hnc.
  rewrite bind_apply. unfold api_call.
  do 2 rewrite lookup_insert_ne by discriminate. rewrite Hm.
  fold (next_request bot method data (page_cursor p)).
  unfold add_sent. cbn [sent event journal cancelled]. rewrite Hfail.
  rewrite <- app_assoc. reflexivity.
Qed.

End Listings.

Lemma py_eq_str_l s v : py_eq (VStr s) v = true <-> v = VStr s.
Proof.
  destruct v; simpl; split; try discriminate; try congruence.
  - intros H. apply String.eqb_eq in H. congruence.
  - intros [= ->]. apply String.eqb_refl.
Qed.

Lemma assoc_filter_other (t : table) (i i0 : string) :
  i <> i0 ->
  assoc (List.filter (fun kv => negb (py_eq (VStr i0) (fst kv))) t) (VStr i) =
    assoc t (VStr i).
Proof.
  intros Hne. induction t as [|[k v] t IH]; [reflexivity|].
  cbn [List.filter fst assoc].
  destruct (py_eq (VStr i0) k) eqn:E0; cbn [negb].
  - apply py_eq_str_l in E0. subst k.
    cbn [py_eq]. destruct (String.eqb_spec i i0); [contradiction | exact IH].
  - cbn [assoc]. rewrite IH. reflexivity.
Qed.

(** The table a comprehension builds over well-formed items, on top of
    what the table held. *)
Lemma build_table_lookup (key val : string) (items : list value)
    (entries : list (string * string)) (acc : table) :
  Forall2 (fun item entry =>
             subscript item key = inr (VStr (fst entry)) /\
             subscript item val = inr (VStr (snd entry))) items entries ->
  exists t,
    build_table key val items acc = inr t /\
    forall i,
      assoc t (VStr i) =
        match last_wins entries !! i with
        | Some n => Some (VStr n)
        | None => assoc acc (VStr i)
        end.
Proof.
  intros Hall. revert acc.
  induction Hall as [|item [i0 n0] items entries [Hk Hv] _ IH]; intros acc.
  - exists acc. split; [reflexivity|]. intros i. reflexivity.
  - cbn [build_table fst snd] in *. rewrite Hk, Hv. unfold table_set. cbn [hashable].
    destruct (IH ((VStr i0, VStr n0) ::
                  List.filter (fun kv => negb (py_eq (VStr i0) (fst kv))) acc))
      as (t & Ht & Hlook).
    exists t. split; [exact Ht|]. intros i. rewrite Hlook.
    unfold last_wins. rewrite reverse_cons, list_to_map_app, lookup_union.
    destruct (list_to_map (reverse entries) !! i) as [n|] eqn:E.
    + rewrite union_Some_l. reflexivity.
    + rewrite (left_id_L None _). cbn [list_to_map foldr fst snd assoc py_eq].
      destruct (String.eqb_spec i i0) as [->|Hne].
      * rewrite lookup_insert_eq. reflexivity.
      * rewrite lookup_insert_ne by congruence. rewrite lookup_empty.
        apply assoc_filter_other. exact Hne.
Qed.

Lemma build_table_fails (key val : string) (good : list value) (bad : value)
    (rest : list value) (entries : list (string * string)) (e : exn) (acc : table) :
  Forall2 (fun item entry =>
             subscript item key = inr (VStr (fst entry)) /\
             subscript item val = inr (VStr (snd entry))) good entries ->
  subscript bad key = inl e \/
  (exists k, subscript bad key = inr k /\ subscript bad val = inl e) ->
  build_table key val (good ++ bad :: rest) acc = inl e.
Proof.
  intros Hall Hbad. revert acc.
  induction Hall as [|item [i0 n0] items entries [Hk Hv] _ IH]; intros acc.
  - cbn [app build_table]. destruct Hbad as [-> | (k & -> & ->)]; reflexivity.
  - cbn [app build_table fst snd] in *. rewrite Hk, Hv. unfold table_set.
    cbn [hashable]. apply IH.
Qed.

Section Directory.

Variable gateway : list request -> request -> outcome value.

(** X19.  After a listing of well-formed members, the user tables are the
    two dictionaries of the listing: [id_to_user] resolves an id to the
    name of the last member listed with that id, [user_to_id] resolves a
    name to the id of the last member listed with that name, and an id or
    a name that was not listed resolves to nothing.  The channel tables,
    the bot's identity and its configuration are as they were. *)
Theorem user_tables_follow_the_listing (fuel : nat) (bot : SlackBot)
    (items : list value) (entries : list (string * string)) (w w' : world) :
  paginated_api_call gateway fuel bot "members" members_call w =
    (Return (VList items), w') ->
  Forall2 is_entry items entries ->
  exists bot',
    load_user_map gateway fuel bot w = (bot', Return tt, w') /\
    (forall i, assoc (id_to_user bot') (VStr i) = VStr <$> last_wins entries !! i) /\
    (forall n, assoc (user_to_id bot') (VStr n) =
               VStr <$> last_wins (map swap_entry entries) !! n) /\
    id_to_channel bot' = id_to_channel bot /\
    channel_to_id bot' = channel_to_id bot /\
    me bot' = me bot /\ token bot' = token bot /\
    report_to_user bot' = report_to_user bot.
Proof.
  intros Hlist Hall. unfold load_user_map. fold members_call. rewrite Hlist.
  unfold assign_tables. cbn [iterate].
  destruct (build_table_lookup "id" "name" items entries [] Hall) as (t1 & -> & H1).
  assert (Hswap : Forall2 (fun item entry =>
                     subscript item "name" = inr (VStr (fst entry)) /\
                     subscript item "id" = inr (VStr (snd entry)))
                    items (map swap_entry entries)).
  { apply Forall2_fmap_r. eapply Forall2_impl; [exact Hall|].
    intros item [i n] [Hi Hn]. split; assumption. }
  destruct (build_table_lookup "name" "id" items _ [] Hswap) as (t2 & -> & H2).
  eexists. split; [reflexivity|]. cbn.
  repeat split.
  - intros i. rewrite H1. destruct (last_wins entries !! i); reflexivity.
  - intros n. rewrite H2. destruct (last_wins (map swap_entry entries) !! n); reflexivity.
Qed.

(** X20.  The user tables are replaced only by tables built in full: when
    a member of the listing has no [id], or no [name], loading raises the
    lookup's exception and the bot keeps every table it had. *)
Theorem malformed_member_keeps_the_tables (fuel : nat) (bot : SlackBot)
    (good : list value) (bad : value) (rest : list value)
    (entries : list (string * string)) (e : exn) (w w' : world) :
  paginated_api_call gateway fuel bot "members" members_call w =
    (Return (VList (good ++ bad :: rest)), w') ->
  Forall2 is_entry good entries ->
  subscript bad "id" = inl e \/
  (exists k, subscript bad "id" = inr k /\ subscript bad "name" = inl e) ->
  load_user_map gateway fuel bot w = (bot, Raise e, w').
Proof.
  intros Hlist Hall Hbad. unfold load_user_map. fold members_call. rewrite Hlist.
  unfold assign_tables. cbn [iterate].
  rewrite (build_table_fails "id" "name" good bad rest entries e [] Hall Hbad).
  reflexivity.
Qed.

End Directory.

(** ** The connection loop, further *)

Lemma leave_other (e : exn) : e <> ConnectionClosed -> leave e = Finished (Raise e).
Proof. destruct e; intros H; try reflexivity. contradiction. Qed.

Section Connection.

Variable gateway : list request -> request -> outcome value.
Variable repr_event : option pydict -> string.
Variable str_exn : exn -> string.
Variable format_exc : exn -> string.
Variable repr_rule : rule -> string.

Let run_script := run gateway repr_event str_exn format_exc repr_rule.
Let connect_once := connect gateway repr_event str_exn format_exc.

Lemma handshake_posted (bot : SlackBot) (w : world) :
  api_call gateway bot {[ "method" := VStr "rtm.connect" ]} w =
    (gateway (sent w) (handshake_request bot), add_sent (handshake_request bot) w).
Proof. reflexivity. Qed.

(** X21.  A handshake that the gateway does not approve ends the run
    normally: [run] returns after its one request, without opening the
    socket, without loading the directory or the rules, and whatever the
    socket would have done is of no consequence. *)
Theorem refused_handshake_ends_the_run (fuel : nat) (rules : list rule)
    (failure : option exn) (rest : list socket_input) (bot : SlackBot) (w : world)
    (response ok : value) :
  gateway (sent w) (handshake_request bot) = Return response ->
  subscript response "ok" = inr ok ->
  truthy ok = false ->
  run_script fuel rules (Connect failure :: rest) Handshaking bot w =
    (bot, Finished (Return tt),
     World (event w) (sent w ++ [handshake_request bot]) (journal w) (cancelled w)).
Proof.
  intros Hgw Hok Hfalse. unfold run_script. cbn [run run_step].
  unfold connect. rewrite handshake_posted, Hgw, Hok, Hfalse. cbn [negb].
  apply run_finished.
Qed.

(** X22.  Only a closed connection is survived.  Any other exception
    that the receive loop meets ends the run with that exception, for
    good: an exception of the receive itself (other than its idle
    timeout), a frame that does not decode, or a failing heartbeat. *)
Theorem other_exceptions_end_the_run (fuel : nat) (rules : list rule)
    (rest : list socket_input) (bot : SlackBot) (w : world) (e : exn) :
  e <> ConnectionClosed ->
  (e <> TimeoutError ->
   run_script fuel rules (Recv (inl e) :: rest) Receiving bot w =
     (bot, Finished (Raise e), w)) /\
  run_script fuel rules (Recv (inr (inl e)) :: rest) Receiving bot w =
    (bot, Finished (Raise e), w) /\
  run_script fuel rules (Ping (Some e) :: rest) HeartbeatPending bot w =
    (bot, Finished (Raise e), w).
Proof.
  intros Hne. unfold run_script. split; [|split].
  - intros Hnt. cbn [run]. 
    assert (Hstep : run_step gateway repr_event str_exn format_exc repr_rule fuel rules
                      Receiving (Recv (inl e)) bot w = (bot, leave e, w)).
    { destruct e; try reflexivity. contradiction. }
    rewrite Hstep, (leave_other e Hne). apply run_finished.
  - cbn [run run_step]. rewrite (leave_other e Hne). apply run_finished.
  - cbn [run run_step]. rewrite (leave_other e Hne). apply run_finished.
Qed.

Lemma well_behaved_lift {A} (r : exn + A) : well_behaved (lift r).
Proof. destruct r; intros v; apply world_le_refl. Qed.

Lemma paginate_well_behaved fuel bot collect_key data acc c :
  well_behaved (paginate gateway fuel bot collect_key data acc c).
Proof.
  revert acc c. induction fuel as [|fuel IH]; intros acc c; cbn [paginate];
    destruct (truthy c); try (intros v; apply world_le_refl).
  apply well_behaved_bind.
  - destruct (data !! "cursor"); [apply well_behaved_raise | apply api_call_well_behaved].
  - intros response. apply well_behaved_bind.
    + destruct acc; try apply well_behaved_raise. apply well_behaved_ret.
    + intros items. apply well_behaved_bind; [apply well_behaved_lift|].
      intros page. apply well_behaved_bind; [apply well_behaved_lift|].
      intros more. apply well_behaved_bind; [apply well_behaved_lift|].
      intros next. apply IH.
Qed.

Lemma paginated_api_call_well_behaved fuel bot collect_key data :
  well_behaved (paginated_api_call gateway fuel bot collect_key data).
Proof.
  unfold paginated_api_call.
  apply well_behaved_bind; [apply api_call_well_behaved|]. intros response.
  apply well_behaved_bind; [apply well_behaved_lift|]. intros acc.
  apply well_behaved_bind; [apply well_behaved_lift|]. intros next.
  apply paginate_well_behaved.
Qed.

Lemma load_user_map_world fuel bot w :
  world_le w (snd (load_user_map gateway fuel bot w)).
Proof.
  unfold load_user_map.
  pose proof (paginated_api_call_well_behaved fuel bot "members"
                {[ "method" := VStr "users.list" ]} w) as H.
  destruct (paginated_api_call gateway fuel bot "members" _ w) as [[users|e|] w1];
    exact H.
Qed.

Lemma load_channel_map_world fuel bot w :
  world_le w (snd (load_channel_map gateway fuel bot w)).
Proof.
  unfold load_channel_map.
  pose proof (paginated_api_call_well_behaved fuel bot "channels"
                (<["types" := VStr "public_channel,private_channel"]>
                   {[ "method" := VStr "conversations.list" ]}) w) as H.
  destruct (paginated_api_call gateway fuel bot "channels" _ w) as [[channels|e|] w1];
    exact H.
Qed.

Lemma log_and_report_well_behaved bot message l :
  well_behaved (log_and_report gateway bot message l).
Proof.
  unfold log_and_report. apply well_behaved_bind; [apply log_well_behaved|].
  intros _. destruct (report_to_user bot) as [user|]; [|apply well_behaved_ret].
  destruct (String.eqb user ""); [apply well_behaved_ret|].
  apply well_behaved_bind; [apply api_call_well_behaved|].
  intros _. apply well_behaved_ret.
Qed.

Lemma cancel_well_behaved fut : well_behaved (cancel fut).
Proof. intros v. repeat split; reflexivity. Qed.

Lemma report_pending_well_behaved bot ev fut os :
  well_behaved (report_pending gateway repr_event bot ev fut os).
Proof.
  revert fut. induction os as [|o os IH]; intros fut; cbn [report_pending];
    [apply well_behaved_ret|].
  destruct o; try apply IH.
  apply well_behaved_bind; [apply cancel_well_behaved | intros _].
  apply well_behaved_bind; [apply log_and_report_well_behaved | intros _; apply IH].
Qed.

Lemma report_done_well_behaved bot ev os :
  well_behaved (report_done gateway repr_event str_exn format_exc bot ev os).
Proof.
  induction os as [|o os IH]; cbn [report_done]; [apply well_behaved_ret|].
  destruct o; try exact IH.
  apply well_behaved_bind; [apply log_and_report_well_behaved | intros _; exact IH].
Qed.

Lemma handle_futures_well_behaved bot (futures : list (task unit)) with_event :
  (forall t, t ∈ futures -> well_behaved t) ->
  well_behaved (_handle_futures gateway repr_event str_exn format_exc bot futures with_event).
Proof.
  intros Hwb. unfold _handle_futures. apply well_behaved_bind.
  - unfold asyncio_wait. destruct futures as [|fut rest]; [apply well_behaved_raise|].
    intros v. destruct (run_tasks_worlds (fut :: rest) v Hwb) as [Hle _].
    destruct (run_tasks (fut :: rest) v) as [os v1]. exact Hle.
  - intros results. apply well_behaved_bind.
    + destruct with_event; [|apply well_behaved_ret].
      intros v. destruct (truthy (VDict (event v))); [|apply world_le_refl].
      destruct (get_readable_event bot (event v)); apply world_le_refl.
    + intros ev. apply well_behaved_bind; [apply report_pending_well_behaved|].
      intros _. apply report_done_well_behaved.
Qed.

(** Whatever becomes of a connection attempt, its first post is the
    handshake, and what had been posted and logged is still there. *)
Lemma connect_world fuel rules failure bot w :
  (forall r b, r ∈ rules -> well_behaved (rule_load r b)) ->
  world_le (add_sent (handshake_request bot) w)
    (snd (connect_once fuel rules failure bot w)).
Proof.
  intros Hload. unfold connect_once, connect. rewrite handshake_posted.
  set (w1 := add_sent (handshake_request bot) w).
  destruct (gateway (sent w) (handshake_request bot)) as [response|e|];
    try apply world_le_refl.
  destruct (subscript response "ok") as [e|ok]; [apply world_le_refl|].
  destruct (negb (truthy ok)); [apply world_le_refl|].
  destruct (subscript response "url") as [e|url]; [apply world_le_refl|].
  destruct failure as [e|]; [apply world_le_refl|].
  destruct (subscript response "self") as [e|self]; [apply world_le_refl|].
  destruct (subscript self "id") as [e|id]; [apply world_le_refl|].
  unfold gather.
  pose proof (load_user_map_world fuel (set_me bot id) w1) as Hu.
  destruct (load_user_map gateway fuel (set_me bot id) w1) as [[bot1 oa] w2].
  pose proof (load_channel_map_world fuel bot1 w2) as Hc.
  destruct (load_channel_map gateway fuel bot1 w2) as [[bot2 ob] w3].
  cbn [snd] in *.
  assert (H13 : world_le w1 w3) by (eapply world_le_trans; eassumption).
  assert (Hrules : world_le w3
            (snd (_handle_futures gateway repr_event str_exn format_exc bot2
                    (map (fun r => rule_load r bot2) rules) false w3))).
  { apply handle_futures_well_behaved. intros t Ht.
    apply list_elem_of_fmap in Ht as (r & -> & Hr). apply Hload. exact Hr. }
  destruct oa as [[]|ea|], ob as [[]|eb|]; try exact H13.
  destruct (_handle_futures gateway repr_event str_exn format_exc bot2
              (map (fun r => rule_load r bot2) rules) false w3) as [o w4].
  cbn [snd] in *. eapply world_le_trans; eassumption.
Qed.

(** X23.  After a closed connection the next thing the bot posts is a
    fresh handshake: whatever the gateway and the socket then do, the
    traffic continues with [rtm.connect], and nothing that had been
    posted or logged is lost. *)
Theorem reconnect_starts_with_a_handshake (fuel : nat) (rules : list rule)
    (failure : option exn) (bot : SlackBot) (w : world) :
  (forall r b, r ∈ rules -> well_behaved (rule_load r b)) ->
  exists more,
    sent (snd (run_script fuel rules
                 [Recv (inl ConnectionClosed); Connect failure] Receiving bot w)) =
      (sent w ++ handshake_request bot :: more)%list /\
    journal w `prefix_of`
      journal (snd (run_script fuel rules
                      [Recv (inl ConnectionClosed); Connect failure] Receiving bot w)).
Proof.
  intros Hload. unfold run_script. cbn [run run_step leave].
  pose proof (connect_world fuel rules failure bot w Hload) as (Hs & Hj & _).
  unfold connect_once in *.
  destruct (connect gateway repr_event str_exn format_exc fuel rules failure bot w)
    as [[bot' p] w']. cbn [snd] in *.
  destruct Hs as [more Hmore]. exists more. split.
  - rewrite Hmore. unfold add_sent. cbn [sent]. rewrite <- app_assoc. reflexivity.
  - exact Hj.
Qed.

Lemma api_call_token (b b' : SlackBot) (data : pydict) :
  token b = token b' -> api_call gateway b data = api_call gateway b' data.
Proof. intros H. unfold api_call. rewrite H. reflexivity. Qed.

Lemma bind_pointwise {A B} (m : task A) (f g : A -> task B) (v : world) :
  (forall a u, f a u = g a u) -> bind m f v = bind m g v.
Proof.
  intros H. rewrite !bind_apply. destruct (m v) as [[a|e|] u]; [apply H | |]; reflexivity.
Qed.

Lemma paginate_token (b b' : SlackBot) collect_key data :
  token b = token b' ->
  forall fuel acc c v,
    paginate gateway fuel b collect_key data acc c v =
    paginate gateway fuel b' collect_key data acc c v.
Proof.
  intros Ht. induction fuel as [|fuel IH]; intros acc c v; cbn [paginate];
    destruct (truthy c); try reflexivity.
  rewrite (api_call_token b b' _ Ht).
  apply bind_pointwise. intros response u.
  apply bind_pointwise. intros items u1.
  apply bind_pointwise. intros page u2.
  apply bind_pointwise. intros more u3.
  apply bind_pointwise. intros next u4.
  apply IH.
Qed.

Lemma paginated_api_call_token (b b' : SlackBot) fuel collect_key data v :
  token b = token b' ->
  paginated_api_call gateway fuel b collect_key data v =
  paginated_api_call gateway fuel b' collect_key data v.
Proof.
  intros Ht. unfold paginated_api_call.
  rewrite (api_call_token b b' _ Ht).
  apply bind_pointwise. intros response u.
  apply bind_pointwise. intros acc u1.
  apply bind_pointwise. intros next u2.
  apply paginate_token. exact Ht.
Qed.

(** The two tables of a well-formed listing. *)
Lemma assign_tables_lookup (set_by_id set_by_name : SlackBot -> table -> SlackBot)
    (bot : SlackBot) (items : list value) (entries : list (string * string)) :
  Forall2 is_entry items entries ->
  exists by_id by_name,
    assign_tables set_by_id set_by_name bot (VList items) =
      (set_by_name (set_by_id bot by_id) by_name, Return tt) /\
    (forall i, assoc by_id (VStr i) = VStr <$> last_wins entries !! i) /\
    (forall n, assoc by_name (VStr n) = VStr <$> last_wins (map swap_entry entries) !! n).
Proof.
  intros Hall. unfold assign_tables. cbn [iterate].
  destruct (build_table_lookup "id" "name" items entries [] Hall) as (t1 & -> & H1).
  assert (Hswap : Forall2 (fun item entry =>
                     subscript item "name" = inr (VStr (fst entry)) /\
                     subscript item "id" = inr (VStr (snd entry)))
                    items (map swap_entry entries)).
  { apply Forall2_fmap_r. eapply Forall2_impl; [exact Hall|].
    intros item [i n] [Hi Hn]. split; assumption. }
  destruct (build_table_lookup "name" "id" items _ [] Hswap) as (t2 & -> & H2).
  exists t1, t2. split; [reflexivity|]. split.
  - intros i. rewrite H1. destruct (last_wins entries !! i); reflexivity.
  - intros n. rewrite H2. destruct (last_wins (map swap_entry entries) !! n); reflexivity.
Qed.

Lemma default_loads_run (rules : list rule) (b : SlackBot) (v : world) :
  (forall r u, r ∈ rules -> rule_load r b u = (Return tt, u)) ->
  run_tasks (map (fun r => rule_load r b) rules) v =
    (map (fun _ => Return tt) rules, v).
Proof.
  induction rules as [|r rules IH]; intros Hload; [reflexivity|].
  cbn [map run_tasks]. rewrite (Hload r v) by left.
  rewrite IH by (intros r' u Hr'; apply Hload; right; exact Hr').
  reflexivity.
Qed.

Lemma nothing_to_report bot ev fut (rules : list rule) (v : world) :
  report_pending gateway repr_event bot ev fut (map (fun _ => Return tt) rules) v =
    (Return tt, v) /\
  report_done gateway repr_event str_exn format_exc bot ev
    (map (fun _ => Return tt) rules) v = (Return tt, v).
Proof.
  revert fut. induction rules as [|r rules IH]; intros fut; split; try reflexivity.
  - apply (IH (S fut)).
  - apply (IH fut).
Qed.

Lemma loads_handled bot (rules : list rule) (v : world) :
  rules <> [] ->
  (forall r u, r ∈ rules -> rule_load r bot u = (Return tt, u)) ->
  _handle_futures gateway repr_event str_exn format_exc bot
    (map (fun r => rule_load r bot) rules) false v = (Return tt, v).
Proof.
  intros Hne Hload. unfold _handle_futures, asyncio_wait.
  destruct (map (fun r => rule_load r bot) rules) as [|fut rest] eqn:E.
  - destruct rules; [congruence | discriminate].
  - rewrite <- E. rewrite bind_apply, (default_loads_run rules bot v Hload).
    rewrite !bind_apply. unfold ret at 1. cbv beta iota.
    destruct (nothing_to_report bot None 0 rules v) as [H1 H2].
    rewrite bind_apply, H1, H2. reflexivity.
Qed.

(** X24.  A connection cycle that succeeds.  When the gateway approves
    the handshake, the socket opens, and the two listings of well-formed
    members and channels arrive, the bot enters the receive loop with the
    identity the handshake announced and with the four directory tables
    rebuilt from the two listings; its rules, which keep the default
    [load], have been loaded without a trace.  A bot without rules does
    not get there: the empty batch of loads raises [ValueError] and ends
    the run. *)
Theorem connection_cycle_loads_the_directory (fuel : nat) (rules : list rule)
    (bot : SlackBot) (w w2 w3 : world) (response ok url self id : value)
    (users channels : list value) (user_entries channel_entries : list (string * string)) :
  gateway (sent w) (handshake_request bot) = Return response ->
  subscript response "ok" = inr ok ->
  truthy ok = true ->
  subscript response "url" = inr url ->
  subscript response "self" = inr self ->
  subscript self "id" = inr id ->
  paginated_api_call gateway fuel bot "members" members_call
    (add_sent (handshake_request bot) w) = (Return (VList users), w2) ->
  paginated_api_call gateway fuel bot "channels" channels_call w2 =
    (Return (VList channels), w3) ->
  Forall2 is_entry users user_entries ->
  Forall2 is_entry channels channel_entries ->
  (forall r b u, r ∈ rules -> rule_load r b u = (Return tt, u)) ->
  exists bot',
    connect_once fuel rules None bot w =
      (bot',
       match rules with
       | [] => Finished (Raise ValueError)
       | _ :: _ => Receiving
       end, w3) /\
    me bot' = id /\
    token bot' = token bot /\
    report_to_user bot' = report_to_user bot /\
    (forall i, assoc (id_to_user bot') (VStr i) = VStr <$> last_wins user_entries !! i) /\
    (forall n, assoc (user_to_id bot') (VStr n) =
               VStr <$> last_wins (map swap_entry user_entries) !! n) /\
    (forall i, assoc (id_to_channel bot') (VStr i) =
               VStr <$> last_wins channel_entries !! i) /\
    (forall n, assoc (channel_to_id bot') (VStr n) =
               VStr <$> last_wins (map swap_entry channel_entries) !! n).
Proof.
  intros Hgw Hok Htrue Hurl Hself Hid Husers Hchannels Hu Hc Hload.
  unfold connect_once, connect.
  rewrite handshake_posted, Hgw, Hok, Htrue, Hurl, Hself, Hid. cbn [negb].
  unfold gather, load_user_map. fold members_call.
  rewrite (paginated_api_call_token (set_me bot id) bot) by reflexivity.
  rewrite Husers.
  destruct (assign_tables_lookup set_id_to_user set_user_to_id (set_me bot id)
              users user_entries Hu) as (u1 & u2 & -> & Hu1 & Hu2).
  unfold load_channel_map. fold channels_call.
  rewrite (paginated_api_call_token _ bot) by reflexivity.
  rewrite Hchannels.
  destruct (assign_tables_lookup set_id_to_channel set_channel_to_id
              (set_user_to_id (set_id_to_user (set_me bot id) u1) u2)
              channels channel_entries Hc) as (c1 & c2 & -> & Hc1 & Hc2).
  eexists. split.
  - destruct rules as [|r rules]; [reflexivity|].
    rewrite loads_handled; [reflexivity | discriminate |].
    intros r' u Hr'. apply Hload. exact Hr'.
  - cbn. repeat split; assumption.
Qed.

End Connection.

(** ** Rule loads *)

Section Loads.

Variable gateway : list request -> request -> outcome value.
Variable repr_event : option pydict -> string.
Variable str_exn : exn -> string.
Variable format_exc : exn -> string.


End Loads.

(** ** Batches of reactions *)

Lemma well_behaved_getitem k : well_behaved (event_getitem k).
Proof.
  intros v. rewrite event_getitem_eq. destruct v as [ev s j c].
  repeat split; simpl; try reflexivity; apply event_value_touched.
Qed.

Lemma well_behaved_set_text v0 : well_behaved (event_setitem "text" v0).
Proof.
  intros v. destruct v as [ev s j c]. unfold event_setitem, set_event.
  repeat split; simpl; try reflexivity;
    unfold event_value, dict_get; rewrite lookup_insert_ne by discriminate; reflexivity.
Qed.

Lemma channel_filter_well_behaved bot (get_applicable_channels : task (list string)) c :
  well_behaved get_applicable_channels ->
  well_behaved (SlackRule.should_respond_to_channel bot get_applicable_channels c).
Proof.
  intros Hc. apply well_behaved_bind; [apply well_behaved_lift|].
  intros name.
  assert (Hlist : well_behaved
            (bind get_applicable_channels
               (fun channels => ret (existsb (fun c0 => py_eq name (VStr c0)) channels)))).
  { apply well_behaved_bind; [exact Hc|]. intros l. apply well_behaved_ret. }
  destruct name; try exact Hlist. apply well_behaved_ret.
Qed.

Lemma contains_filter_well_behaved {tables : CaseTables}
    (get_query_strings : task (list string)) :
  well_behaved get_query_strings ->
  well_behaved (MessageContainsRule.should_respond_to_message get_query_strings).
Proof.
  intros Hq. apply well_behaved_bind; [exact Hq|].
  intros queries. induction queries as [|q qs IH]; simpl.
  - apply well_behaved_ret.
  - apply well_behaved_bind; [apply well_behaved_getitem|].
    intros [| | |s| |]; try apply well_behaved_raise.
    destruct (str_contains q (lower s)); [apply well_behaved_ret | exact IH].
Qed.

(** A rule on the default pipeline only adds to the traffic and to the
    log, and leaves the identifiers of the event alone, when its own
    methods do. *)
Lemma react_well_behaved (channel_filter : value -> task bool) (message_filter : task bool)
    (get_response_text : task response_text) :
  (forall c, well_behaved (channel_filter c)) ->
  well_behaved message_filter ->
  well_behaved get_response_text ->
  well_behaved
    (SlackRule.react (SlackRule.should_respond_to_event channel_filter message_filter)
       (SlackRule.respond get_response_text)).
Proof.
  intros Hc Hm Hr. unfold SlackRule.react. apply well_behaved_bind.
  - unfold SlackRule.should_respond_to_event.
    apply well_behaved_bind; [apply well_behaved_getitem|]. intros ty.
    destruct (negb (py_eq ty (VStr "message"))); [apply well_behaved_ret|].
    apply well_behaved_bind; [apply well_behaved_getitem|]. intros channel.
    apply well_behaved_bind; [apply Hc|]. intros ok.
    destruct (negb ok); [apply well_behaved_ret|].
    apply well_behaved_bind; [apply well_behaved_getitem|]. intros text.
    apply well_behaved_bind; [|intros _; exact Hm].
    destruct text; try apply well_behaved_ret. apply well_behaved_set_text.
  - intros [|]; [|apply well_behaved_ret]. unfold SlackRule.respond.
    apply well_behaved_bind; [exact Hr|]. intros responses.
    apply well_behaved_bind; [apply well_behaved_getitem|]. intros channel.
    apply well_behaved_bind; [apply well_behaved_getitem|]. intros thread_ts.
    apply well_behaved_bind.
    + destruct thread_ts; try (apply well_behaved_bind; [apply well_behaved_getitem|];
        intros ?; apply well_behaved_ret).
      apply well_behaved_ret.
    + intros message. apply well_behaved_ret.
Qed.

Section Batches.

Variable gateway : list request -> request -> outcome value.
Variable repr_event : option pydict -> string.
Variable str_exn : exn -> string.
Variable format_exc : exn -> string.
Variable repr_rule : rule -> string.

Let process := _process_event gateway repr_event str_exn format_exc repr_rule.
Let react_to := _react_to_rule gateway repr_rule.

(** X26.  An event of somebody else that is no message and whose [user]
    or [channel] is an object or a list, as the events [team_join] and
    [channel_created] have them, ends its batch with [TypeError].  The
    reactions run; then the handler raises while it renders the event for
    its reports, before it cancels or reports anything: whatever the
    outcomes of the reactions are, the world is left as the reactions
    left it.  The rules are taken to leave the [user] and the [channel]
    of the event as they are. *)
Theorem unreadable_event_ends_the_batch (bot : SlackBot) (rules : list rule)
    (event_dict : pydict) (w w1 : world) (os : list (outcome unit)) :
  py_eq (event_value event_dict "user") (me bot) = false ->
  event_value event_dict "type" <> VStr "message" ->
  hashable (event_value event_dict "user") = false \/
  hashable (event_value event_dict "channel") = false ->
  rules <> [] ->
  (forall r, r ∈ rules -> well_behaved (rule_react r bot)) ->
  run_tasks (map (react_to bot) rules)
    (World (touched "type" (touched "user" event_dict)) (sent w) (journal w)
       (cancelled w)) = (os, w1) ->
  process bot rules event_dict w = (Raise TypeError, w1).
Proof.
  intros Hme Hty Hbad Hne Hwb Hrun. unfold process.
  rewrite (other_event_dispatches gateway repr_event str_exn format_exc repr_rule
             bot rules event_dict w Hme Hty).
  apply (handle_futures_unreadable gateway repr_event str_exn format_exc bot _ _ os w1);
    [destruct rules; [congruence | discriminate] | exact Hrun |].
  pose proof (reactions_keep_identifiers gateway repr_rule bot rules
                (World (touched "type" (touched "user" event_dict)) (sent w) (journal w)
                   (cancelled w)) Hwb) as Hle.
  unfold react_to in Hrun. rewrite Hrun in Hle.
  destruct Hle as (_ & _ & Hc & Hu). cbn [snd event] in Hc, Hu.
  rewrite Hc, Hu, !event_value_touched. exact Hbad.
Qed.


(** X28.  What the task of one reaction does with the reaction's result,
    with a gateway that answers.  The actions a reaction returns, each
    naming its method and none with a keyword [self], are all posted, in
    their order, behind whatever the reaction itself posted; the line
    that the rule is responding is logged exactly when there is an
    action; and the task returns.  A reaction that raises, or that does
    not complete, is the task's own outcome, and nothing is added to what
    the reaction did. *)
Theorem returned_actions_are_submitted (bot : SlackBot) (r : rule)
    (o : outcome (list pydict)) (w w' : world) :
  answers gateway ->
  rule_react r bot w = (o, w') ->
  (forall actions, o = Return actions -> Forall valid_action actions) ->
  react_to bot r w =
    match o with
    | Return actions =>
        (Return tt,
         World (event w')
           (sent w' ++ map (action_request bot) actions)
           (journal w' ++
            match actions with
            | [] => []
            | _ :: _ => [(INFO, "Rule " ++ repr_rule r ++ " is responding to an event.")]
            end)
           (cancelled w'))
    | Raise e => (Raise e, w')
    | Suspended => (Suspended, w')
    end.
Proof.
  intros Hgw Hr Hvalid. unfold react_to. destruct o as [actions|e|].
  - apply (react_to_rule_submits gateway repr_rule Hgw bot r actions w w' Hr).
    apply Hvalid. reflexivity.
  - unfold _react_to_rule. rewrite bind_apply, Hr. reflexivity.
  - unfold _react_to_rule. rewrite bind_apply, Hr. reflexivity.
Qed.

End Batches.

(** ** The further properties at sample inputs *)

Lemma valid_greeting : valid_action greeting.
Proof. split; [eexists|]; reflexivity. Qed.

Lemma submit_stops_at_invalid_action_witness :
  submit agreeable_gateway sample_bot ([greeting] ++ methodless :: [greeting]) (blank ∅) =
    (Raise (KeyError "method"),
     World (event (blank ∅))
       (sent (blank ∅) ++ map (action_request sample_bot) [greeting])
       (journal (blank ∅)) (cancelled (blank ∅))) /\
  submit agreeable_gateway sample_bot ([greeting] ++ selfish :: [greeting]) (blank ∅) =
    (Raise TypeError,
     World (event (blank ∅))
       (sent (blank ∅) ++ map (action_request sample_bot) [greeting])
       (journal (blank ∅)) (cancelled (blank ∅))).
Proof.
  split.
  - apply (submit_stops_at_invalid_action agreeable_gateway sample_bot
             [greeting] methodless [greeting] (blank ∅)).
    + intros history req. eexists. reflexivity.
    + constructor; [exact valid_greeting | constructor].
    + intros [[m Hm] _]. vm_compute in Hm. discriminate.
  - apply (submit_stops_at_invalid_action agreeable_gateway sample_bot
             [greeting] selfish [greeting] (blank ∅)).
    + intros history req. eexists. reflexivity.
    + constructor; [exact valid_greeting | constructor].
    + intros [_ Hself]. vm_compute in Hself. discriminate.
Defined.

Lemma batch_without_rules_raises_witness :
  fst (_process_event agreeable_gateway show_event show_exn show_exn show_rule
         sample_bot [] (sample_message (VStr "hi")) (blank ∅)) = Raise ValueError /\
  sent (snd (_process_event agreeable_gateway show_event show_exn show_exn show_rule
               sample_bot [] (sample_message (VStr "hi")) (blank ∅))) = sent (blank ∅).
Proof.
  apply (batch_without_rules_raises agreeable_gateway show_event show_exn show_exn
           show_rule sample_bot (sample_message (VStr "hi")) (blank ∅));
    vm_compute; reflexivity.
Defined.

Lemma malformed_channel_stops_processing_witness :
  fst (_process_event agreeable_gateway show_event show_exn show_exn show_rule
         sample_bot [greeter] numbered_message (blank ∅)) = Raise AttributeError /\
  sent (snd (_process_event agreeable_gateway show_event show_exn show_exn show_rule
               sample_bot [greeter] numbered_message (blank ∅))) = sent (blank ∅) /\
  journal (snd (_process_event agreeable_gateway show_event show_exn show_exn show_rule
                  sample_bot [greeter] numbered_message (blank ∅))) = journal (blank ∅).
Proof.
  apply (malformed_channel_stops_processing agreeable_gateway show_event show_exn show_exn
           show_rule sample_bot [greeter] numbered_message (blank ∅)).
  - vm_compute. reflexivity.
  - vm_compute. reflexivity.
  - vm_compute. reflexivity.
  - intros s. vm_compute. discriminate.
Defined.

Lemma direct_message_is_logged_witness :
  exists ev readable,
    same_lookups direct_message ev /\
    get_readable_event sample_bot ev = inr readable /\
    _process_event agreeable_gateway show_event show_exn show_exn show_rule
      sample_bot [greeter] direct_message (blank ∅) =
      _handle_futures agreeable_gateway show_event show_exn show_exn sample_bot
        (map (_react_to_rule agreeable_gateway show_rule sample_bot) [greeter]) true
        (World ev (sent (blank ∅))
           (journal (blank ∅) ++
            if startswith "D123" "D"
            then [(INFO, "Direct message: " ++ show_event (Some readable))]
            else [])
           (cancelled (blank ∅))).
Proof.
  apply (direct_message_is_logged agreeable_gateway show_event show_exn show_exn
           show_rule sample_bot [greeter] direct_message (blank ∅) "D123");
    vm_compute; reflexivity.
Defined.

Lemma respond_builds_one_action_per_text_witness :
  exists actions w2,
    SlackRule.respond (ret (Texts ["one"; "two"])) (blank threaded_message) =
      (Return actions, w2) /\
    map (fun action => action !! "text") actions =
      map (fun text => Some (VStr text)) (texts_of (Texts ["one"; "two"])) /\
    Forall (fun action =>
              action !! "method" = Some (VStr "chat.postMessage") /\
              action !! "channel" =
                Some (event_value (event (blank threaded_message)) "channel") /\
              action !! "as_user" = Some (VBool true) /\
              action !! "thread_ts" =
                match event_value (event (blank threaded_message)) "thread_ts" with
                | VNone => None
                | ts => Some ts
                end) actions /\
    same_lookups (event (blank threaded_message)) (event w2) /\
    sent w2 = sent (blank threaded_message) /\
    journal w2 = journal (blank threaded_message).
Proof.
  apply (respond_builds_one_action_per_text (ret (Texts ["one"; "two"]))
           (Texts ["one"; "two"]) (blank threaded_message) (blank threaded_message)).
  reflexivity.
Defined.

Lemma refused_channel_ends_the_filter_witness :
  SlackRule.should_respond_to_event (fun _ => ret false) (raise AttributeError)
    (blank textless_message) =
    (Return false,
     set_event (touched "channel") (set_event (touched "type") (blank textless_message))).
Proof.
  apply (refused_channel_ends_the_filter (fun _ => ret false) (raise AttributeError)
           (blank textless_message)
           (set_event (touched "channel")
              (set_event (touched "type") (blank textless_message))));
    reflexivity.
Defined.

Lemma textless_message_is_matched_as_empty_witness :
  SlackRule.should_respond_to_event (fun _ => ret true)
    (MessageContainsRule.should_respond_to_message (tables := ascii_tables)
       (ret ["love me"]))
    (blank textless_message) =
    (Return (existsb (fun q => String.eqb q "") ["love me"]),
     set_event (fun ev => <["text" := VStr ""]> (touched "text" ev))
       (set_event (touched "channel")
          (set_event (touched "type") (blank textless_message)))).
Proof.
  apply (textless_message_is_matched_as_empty (tables := ascii_tables)
           (fun _ => ret true) ["love me"]
           (blank textless_message)
           (set_event (touched "channel")
              (set_event (touched "type") (blank textless_message))));
    reflexivity.
Defined.

Lemma contains_filter_needs_a_string_witness :
  MessageContainsRule.should_respond_to_message (tables := ascii_tables) (ret ["love me"])
    (blank textless_message) =
    (Raise AttributeError, set_event (touched "text") (blank textless_message)).
Proof.
  apply (contains_filter_needs_a_string (tables := ascii_tables) ["love me"]
           (blank textless_message)).
  intros s. vm_compute. discriminate.
Defined.

Lemma empty_query_matches_every_text_witness :
  MessageContainsRule.should_respond_to_message (tables := ascii_tables)
    (ret ["love me"; ""])
    (blank (sample_message (VStr "I love cats"))) =
    (Return true, blank (sample_message (VStr "I love cats"))).
Proof.
  apply (empty_query_matches_every_text (tables := ascii_tables)
           ["love me"; ""] "I love cats"
           (blank (sample_message (VStr "I love cats")))).
  - reflexivity.
  - right. left.
Defined.

Lemma snippet_rule_downloads_only_snippets_witness :
  SnippetOrMessageContainsRule.should_respond_to_message (tables := ascii_tables)
    (ret ["love me"]) (fun _ => raise (OtherError "no network"))
    (blank (sample_message (VStr "Does anyone LOVE ME?"))) =
    (Return true, blank (sample_message (VStr "Does anyone LOVE ME?"))).
Proof.
  apply (snippet_rule_downloads_only_snippets (tables := ascii_tables)
           (fun _ => raise (OtherError "no network"))
           ["love me"] "Does anyone LOVE ME?"
           (blank (sample_message (VStr "Does anyone LOVE ME?"))));
    reflexivity.
Defined.

Lemma snippet_rule_matches_the_contents_witness :
  SnippetOrMessageContainsRule.should_respond_to_message (tables := ascii_tables)
    (ret ["love me"]) (fun _ => ret "Love Me Tender") (blank shared_snippet) =
    (Return true, blank shared_snippet).
Proof.
  apply (snippet_rule_matches_the_contents (tables := ascii_tables)
           (fun _ => ret "Love Me Tender")
           ["love me"] "see attached"
           (<["url_private" := VStr "https://files/1"]> {[ "mode" := VStr "snippet" ]})
           (VStr "https://files/1") (Return "Love Me Tender")
           (blank shared_snippet) (blank shared_snippet));
    reflexivity.
Defined.

Lemma are_you_listening_replies_witness :
  rule_react (AreYouListening (tables := ascii_tables)) random_bot
    (blank (sample_message (VStr "Robots of the world, are you LISTENING?"))) =
    (Return [reply (VStr "C1") VNone "Yes. You can't see me, but I'm right behind you."],
     set_event (touched "thread_ts")
       (blank (sample_message (VStr "Robots of the world, are you LISTENING?")))).
Proof.
  apply (are_you_listening_replies (tables := ascii_tables) random_bot "C1"
           "Robots of the world, are you LISTENING?"
           (blank (sample_message (VStr "Robots of the world, are you LISTENING?"))));
    reflexivity.
Defined.

Lemma bare_rule_fails_in_known_channels_witness :
  rule_react bare_rule sample_bot (blank (sample_message (VStr "hi"))) =
    (Raise NotImplementedError, blank (sample_message (VStr "hi"))).
Proof.
  apply (bare_rule_fails_in_known_channels sample_bot (VStr "C1")
           (blank (sample_message (VStr "hi")))); reflexivity.
Defined.

Lemma listing_without_collect_key_raises_witness :
  paginated_api_call agreeable_gateway 3 sample_bot "members" users_list (blank ∅) =
    (Raise (KeyError "members"),
     World (event (blank ∅))
       (sent (blank ∅) ++ [first_request sample_bot (VStr "users.list") users_list])
       (journal (blank ∅)) (cancelled (blank ∅))).
Proof.
  apply (listing_without_collect_key_raises agreeable_gateway sample_bot "members"
           users_list (VStr "users.list") {[ "ok" := VBool true ]} 3 (blank ∅));
    reflexivity.
Defined.

Lemma failed_page_fails_the_listing_witness :
  paginated_api_call flaky_gateway 3 sample_bot "members" users_list (blank ∅) =
    (Raise (OtherError "connection reset"),
     World (event (blank ∅))
       (sent (blank ∅) ++
        [first_request sample_bot (VStr "users.list") users_list;
         next_request sample_bot (VStr "users.list") users_list
           (page_cursor (Page (members 0 2) (VStr "c1")))])
       (journal (blank ∅)) (cancelled (blank ∅))).
Proof.
  apply (failed_page_fails_the_listing flaky_gateway sample_bot "members" users_list
           (VStr "users.list") (Page (members 0 2) (VStr "c1"))
           (listing_page (members 0 2) (Some "c1")) (OtherError "connection reset")
           2 (blank ∅)); try reflexivity.
  split; reflexivity.
Defined.

Lemma team_users_are_entries :
  Forall2 is_entry team_users [("U1", "simba"); ("U2", "nala")].
Proof. repeat constructor. Qed.

Lemma team_channels_are_entries :
  Forall2 is_entry team_channels [("C1", "general")].
Proof. repeat constructor. Qed.

Lemma user_tables_follow_the_listing_witness :
  exists bot',
    load_user_map team_gateway 0 sample_bot (blank ∅) =
      (bot', Return tt,
       World ∅ [first_request sample_bot (VStr "users.list") members_call] [] []) /\
    (forall i, assoc (id_to_user bot') (VStr i) =
               VStr <$> last_wins [("U1", "simba"); ("U2", "nala")] !! i) /\
    (forall n, assoc (user_to_id bot') (VStr n) =
               VStr <$> last_wins (map swap_entry [("U1", "simba"); ("U2", "nala")]) !! n) /\
    id_to_channel bot' = id_to_channel sample_bot /\
    channel_to_id bot' = channel_to_id sample_bot /\
    me bot' = me sample_bot /\ token bot' = token sample_bot /\
    report_to_user bot' = report_to_user sample_bot.
Proof.
  apply (user_tables_follow_the_listing team_gateway 0 sample_bot team_users
           [("U1", "simba"); ("U2", "nala")] (blank ∅)
           (World ∅ [first_request sample_bot (VStr "users.list") members_call] [] [])).
  - vm_compute. reflexivity.
  - exact team_users_are_entries.
Defined.

Lemma malformed_member_keeps_the_tables_witness :
  load_user_map nameless_gateway 0 sample_bot (blank ∅) =
    (sample_bot, Raise (KeyError "id"),
     World ∅ [first_request sample_bot (VStr "users.list") members_call] [] []).
Proof.
  apply (malformed_member_keeps_the_tables nameless_gateway 0 sample_bot
           [member "U1" "simba"] (VDict {[ "name" := VStr "ghost" ]}) []
           [("U1", "simba")] (KeyError "id") (blank ∅)
           (World ∅ [first_request sample_bot (VStr "users.list") members_call] [] [])).
  - vm_compute. reflexivity.
  - repeat constructor.
  - left. reflexivity.
Defined.

Lemma refused_handshake_ends_the_run_witness :
  run refusing_gateway show_event show_exn show_exn show_rule 0 [greeter]
    [Connect None; Recv (inl ConnectionClosed)] Handshaking sample_bot (blank ∅) =
    (sample_bot, Finished (Return tt),
     World (event (blank ∅)) (sent (blank ∅) ++ [handshake_request sample_bot])
       (journal (blank ∅)) (cancelled (blank ∅))).
Proof.
  apply (refused_handshake_ends_the_run refusing_gateway show_event show_exn show_exn
           show_rule 0 [greeter] None [Recv (inl ConnectionClosed)] sample_bot (blank ∅)
           (VDict {[ "ok" := VBool false ]}) (VBool false)); reflexivity.
Defined.

Lemma other_exceptions_end_the_run_witness :
  (ValueError <> TimeoutError ->
   run agreeable_gateway show_event show_exn show_exn show_rule 0 [greeter]
     [Recv (inl ValueError); Connect None] Receiving sample_bot (blank ∅) =
     (sample_bot, Finished (Raise ValueError), blank ∅)) /\
  run agreeable_gateway show_event show_exn show_exn show_rule 0 [greeter]
    [Recv (inr (inl ValueError)); Connect None] Receiving sample_bot (blank ∅) =
    (sample_bot, Finished (Raise ValueError), blank ∅) /\
  run agreeable_gateway show_event show_exn show_exn show_rule 0 [greeter]
    [Ping (Some ValueError); Connect None] HeartbeatPending sample_bot (blank ∅) =
    (sample_bot, Finished (Raise ValueError), blank ∅).
Proof.
  apply (other_exceptions_end_the_run agreeable_gateway show_event show_exn show_exn
           show_rule 0 [greeter] [Connect None] sample_bot (blank ∅) ValueError).
  discriminate.
Defined.

Lemma reconnect_starts_with_a_handshake_witness :
  exists more,
    sent (snd (run team_gateway show_event show_exn show_exn show_rule 0 [greeter]
                 [Recv (inl ConnectionClosed); Connect None] Receiving sample_bot
                 (blank ∅))) =
      (sent (blank ∅) ++ handshake_request sample_bot :: more)%list /\
    journal (blank ∅) `prefix_of`
      journal (snd (run team_gateway show_event show_exn show_exn show_rule 0 [greeter]
                      [Recv (inl ConnectionClosed); Connect None] Receiving sample_bot
                      (blank ∅))).
Proof.
  apply (reconnect_starts_with_a_handshake team_gateway show_event show_exn show_exn
           show_rule 0 [greeter] None sample_bot (blank ∅)).
  intros r b Hr. apply elem_of_cons in Hr as [->|Hr]; [|inversion Hr].
  intros v. apply world_le_refl.
Defined.

Lemma connection_cycle_loads_the_directory_witness :
  exists bot',
    connect team_gateway show_event show_exn show_exn 0 [greeter] None sample_bot
      (blank ∅) =
      (bot', Receiving,
       World ∅
         [handshake_request sample_bot;
          first_request sample_bot (VStr "users.list") members_call;
          first_request sample_bot (VStr "conversations.list") channels_call] [] []) /\
    me bot' = VStr "UBOT" /\
    token bot' = token sample_bot /\
    report_to_user bot' = report_to_user sample_bot /\
    (forall i, assoc (id_to_user bot') (VStr i) =
               VStr <$> last_wins [("U1", "simba"); ("U2", "nala")] !! i) /\
    (forall n, assoc (user_to_id bot') (VStr n) =
               VStr <$> last_wins (map swap_entry [("U1", "simba"); ("U2", "nala")]) !! n) /\
    (forall i, assoc (id_to_channel bot') (VStr i) =
               VStr <$> last_wins [("C1", "general")] !! i) /\
    (forall n, assoc (channel_to_id bot') (VStr n) =
               VStr <$> last_wins (map swap_entry [("C1", "general")]) !! n).
Proof.
  apply (connection_cycle_loads_the_directory team_gateway show_event show_exn show_exn
           0 [greeter] sample_bot (blank ∅)
           (World ∅ [handshake_request sample_bot;
                     first_request sample_bot (VStr "users.list") members_call] [] [])
           (World ∅ [handshake_request sample_bot;
                     first_request sample_bot (VStr "users.list") members_call;
                     first_request sample_bot (VStr "conversations.list") channels_call]
              [] [])
           approval (VBool true) (VStr "wss://gateway/1")
           (VDict {[ "id" := VStr "UBOT" ]}) (VStr "UBOT")
           team_users team_channels
           [("U1", "simba"); ("U2", "nala")] [("C1", "general")]).
  - reflexivity.
  - reflexivity.
  - reflexivity.
  - reflexivity.
  - reflexivity.
  - reflexivity.
  - vm_compute. reflexivity.
  - vm_compute. reflexivity.
  - exact team_users_are_entries.
  - exact team_channels_are_entries.
  - intros r b u Hr. apply elem_of_cons in Hr as [->|Hr]; [reflexivity | inversion Hr].
Defined.


(** The rules of the sample batches leave the identifiers of the event
    alone. *)
Lemma sample_rules_well_behaved (bot : SlackBot) (r : rule) :
  r ∈ [broken; bare_rule; sleeper; greeter;
       contains_rule (tables := ascii_tables) "greet" ["general"] ["hi"] "hello"] ->
  well_behaved (rule_react r bot).
Proof.
  intros Hr. repeat (apply elem_of_cons in Hr as [->|Hr]); [| | | | |inversion Hr].
  - intros v. apply world_le_refl.
  - apply react_well_behaved.
    + intros c. apply channel_filter_well_behaved, well_behaved_raise.
    + apply well_behaved_raise.
    + apply well_behaved_raise.
  - intros v. apply world_le_refl.
  - intros v. apply world_le_refl.
  - apply react_well_behaved.
    + intros c. apply channel_filter_well_behaved, well_behaved_ret.
    + apply contains_filter_well_behaved, well_behaved_ret.
    + apply well_behaved_ret.
Qed.

Lemma unreadable_event_ends_the_batch_witness :
  _process_event agreeable_gateway show_event show_exn show_exn show_rule sample_bot
    [broken; sleeper; greeter] team_join (blank ∅) =
    (Raise TypeError,
     World team_join [action_request sample_bot greeting]
       [(INFO, "Rule greeter is responding to an event.")] []).
Proof.
  apply (unreadable_event_ends_the_batch agreeable_gateway show_event show_exn show_exn
           show_rule sample_bot [broken; sleeper; greeter] team_join (blank ∅)
           (World team_join [action_request sample_bot greeting]
              [(INFO, "Rule greeter is responding to an event.")] [])
           [Raise (OtherError "boom"); Suspended; Return tt]).
  - vm_compute. reflexivity.
  - vm_compute. discriminate.
  - left. vm_compute. reflexivity.
  - discriminate.
  - intros r Hr. apply sample_rules_well_behaved.
    repeat (apply elem_of_cons in Hr as [->|Hr]); [| | |inversion Hr];
      repeat first [left | right].
  - vm_compute. reflexivity.
Defined.


(** The same batch, run. *)
Example sample_rules_are_isolated :
  let result :=
    _process_event agreeable_gateway show_event show_exn show_exn show_rule sample_bot
      [bare_rule; sleeper;
       contains_rule (tables := ascii_tables) "greet" ["general"] ["hi"] "hello"]
      (sample_message (VStr "hi")) (blank ∅) in
  fst result = Return tt /\
  texts_posted "chat.postMessage" (sent (snd result)) =
    [Some (VStr "hello");
     Some (VStr (timeout_message show_event (Some readable_hi)));
     Some (VStr (error_message show_event show_exn show_exn NotImplementedError
                   (Some readable_hi)))] /\
  map fst (journal (snd result)) = [INFO; ERROR; ERROR] /\
  cancelled (snd result) = [1].
Proof.
  vm_compute. repeat split.
Qed.

Lemma returned_actions_are_submitted_witness :
  _react_to_rule agreeable_gateway show_rule random_bot
    (AreYouListening (tables := ascii_tables))
    (blank (sample_message (VStr "ARE YOU THERE?"))) =
    (Return tt,
     World (touched "thread_ts" (sample_message (VStr "ARE YOU THERE?")))
       [action_request random_bot
          (reply (VStr "C1") VNone "Yes. You can't see me, but I'm right behind you.")]
       [(INFO, "Rule AreYouListening is responding to an event.")] []).
Proof.
  apply (returned_actions_are_submitted agreeable_gateway show_rule random_bot
           (AreYouListening (tables := ascii_tables))
           (Return [reply (VStr "C1") VNone
                      "Yes. You can't see me, but I'm right behind you."])
           (blank (sample_message (VStr "ARE YOU THERE?")))
           (World (touched "thread_ts" (sample_message (VStr "ARE YOU THERE?"))) [] [] [])).
  - exact agreeable_gateway_answers.
  - vm_compute. reflexivity.
  - intros actions [= <-]. constructor; [|constructor].
    split; [eexists|]; vm_compute; reflexivity.
Defined.
